(** * Loading MTX expression matrices and cluster tables into duckdb

    A shallow embedding of [sandbox/expression.py]: the identifier index
    ([ParseIDs]), the batching generator ([StreamMatrixData]) and the two
    loaders of [ExprDB] ([LoadMTX], [LoadClusters]) with the insert helpers
    they call.

    Conventions of the embedding.
    - Python [int] is [Z]; [str] is [string], read as a sequence of ASCII
      characters (the whitespace and digit classes below are the ASCII ones:
      that of [str.strip], and the narrower one of [int] and [float]).
    - A text file is its decoded content, with ['\n'] as line terminator
      (what Python's universal-newline text mode hands to the program).
    - Exceptions are values of [Exn]; a computation that may raise returns a
      [result], a procedure that also changes the database an [Outcome].
    - [float] and the database connection are the two collaborators whose
      code is outside the repository: they are interfaces ([FloatModel],
      [Engine]) and the development is generic in them. Reference instances
      are given at the end of the definitions and used to run the scenarios.
    - The diagnostic [print] calls write to stdout only and are not modelled. *)

From Stdlib Require Import ZArith Ascii.
From stdpp Require Import gmap strings list pretty.

Local Open Scope Z_scope.

(** ** Exceptions and results *)

Inductive Exn : Type :=
  | OSError                      (* the file cannot be opened *)
  | ValueError                   (* int(), float(), tuple unpacking *)
  | IndexError                   (* list index out of range *)
  | KeyError                     (* dict key absent *)
  | DatabaseError (msg : string) (* raised by the connection's execute *).

Inductive result (A : Type) : Type :=
  | Ok (a : A)
  | Raise (e : Exn).
Arguments Ok {A} a.
Arguments Raise {A} e.

Definition bind {A B} (m : result A) (k : A → result B) : result B :=
  match m with
  | Ok a => k a
  | Raise e => Raise e
  end.

Notation "'let*' x := m 'in' k" := (bind m (λ x, k))
  (at level 10, x pattern, m at level 100, k at level 200).

(** The spec's error taxonomy over the Python exceptions of the code. *)
Definition is_ParseError (e : Exn) : bool :=
  match e with ValueError | IndexError => true | _ => false end.

Definition is_LookupError (e : Exn) : bool :=
  match e with KeyError | IndexError => true | _ => false end.

(** ** The Python built-ins the module uses *)

Module Py.

Definition NL : ascii := "010"%char.
Definition TAB : ascii := "009"%char.
Definition SPACE : ascii := " "%char.

(** [str.isspace] on one ASCII character: \t \n \v \f \r, the four
    separators 0x1c-0x1f and the space. *)
Definition isspace (c : ascii) : bool :=
  let n := Z.of_N (N_of_ascii c) in
  ((9 <=? n) && (n <=? 13)) || ((28 <=? n) && (n <=? 31)) || (n =? 32).

Definition isdigit (c : ascii) : bool :=
  let n := Z.of_N (N_of_ascii c) in (48 <=? n) && (n <=? 57).

Definition digit_value (c : ascii) : Z := Z.of_N (N_of_ascii c) - 48.

Definition is_empty (s : string) : bool :=
  match s with EmptyString => true | String _ _ => false end.

Fixpoint lstrip (s : string) : string :=
  match s with
  | EmptyString => EmptyString
  | String c s' => if isspace c then lstrip s' else s
  end.

Fixpoint rstrip (s : string) : string :=
  match s with
  | EmptyString => EmptyString
  | String c s' =>
      let r := rstrip s' in
      if isspace c && is_empty r then EmptyString else String c r
  end.

(** [s.strip()] *)
Definition strip (s : string) : string := rstrip (lstrip s).

(** [s.startswith(p)] *)
Fixpoint startswith (p s : string) : bool :=
  match p, s with
  | EmptyString, _ => true
  | String a p', String b s' => Ascii.eqb a b && startswith p' s'
  | String _ _, EmptyString => false
  end.

(** [s.split(sep)] for a one-character separator: never empty, keeps
    empty fields. *)
Fixpoint split (sep : ascii) (s : string) : list string :=
  match s with
  | EmptyString => [EmptyString]
  | String c s' =>
      if Ascii.eqb c sep then EmptyString :: split sep s'
      else match split sep s' with
           | f :: fs => String c f :: fs
           | [] => [String c EmptyString]
           end
  end.

(** [sep.join(l)] *)
Fixpoint join (sep : string) (l : list string) : string :=
  match l with
  | [] => EmptyString
  | [x] => x
  | x :: xs => x +:+ sep +:+ join sep xs
  end.

(** Iterating over an open text file: the lines with their terminator,
    the last one without when the file does not end in a newline. *)
Fixpoint readlines (content : string) : list string :=
  match content with
  | EmptyString => []
  | String c s' =>
      if Ascii.eqb c NL then String c EmptyString :: readlines s'
      else match readlines s' with
           | l :: ls => String c l :: ls
           | [] => [String c EmptyString]
           end
  end.

(** The digits of an integer literal: [digit (["_"] digit)*]. *)
Fixpoint int_digits (acc : Z) (after_digit : bool) (s : string) : option Z :=
  match s with
  | EmptyString => if after_digit then Some acc else None
  | String c s' =>
      if isdigit c then int_digits (10 * acc + digit_value c) true s'
      else if Ascii.eqb c "_" && after_digit then int_digits acc false s'
      else None
  end.

(** The whitespace that [int] and [float] skip around a literal: C's
    [isspace], that is \t \n \v \f \r and the space. The separators
    0x1c-0x1f, which [str.strip] removes, are not in it. *)
Definition c_isspace (c : ascii) : bool :=
  let n := Z.of_N (N_of_ascii c) in
  ((9 <=? n) && (n <=? 13)) || (n =? 32).

Fixpoint c_lstrip (s : string) : string :=
  match s with
  | EmptyString => EmptyString
  | String c s' => if c_isspace c then c_lstrip s' else s
  end.

Fixpoint c_rstrip (s : string) : string :=
  match s with
  | EmptyString => EmptyString
  | String c s' =>
      let r := c_rstrip s' in
      if c_isspace c && is_empty r then EmptyString else String c r
  end.

Definition c_strip (s : string) : string := c_rstrip (c_lstrip s).

(** The number of digits of a literal, and the most [int] converts
    (the default of [sys.int_info.default_max_str_digits]). *)
Fixpoint count_digits (s : string) : Z :=
  match s with
  | EmptyString => 0
  | String c s' => (if isdigit c then 1 else 0) + count_digits s'
  end.

Definition int_max_str_digits : Z := 4300.

(** [int(s)] in base 10: whitespace of C's class around the literal, an
    optional sign, digits, no more of them than the limit. *)
Definition int (s : string) : result Z :=
  let t := c_strip s in
  let parsed :=
    match t with
    | String "+" r => int_digits 0 false r
    | String "-" r => Z.opp <$> int_digits 0 false r
    | _ => int_digits 0 false t
    end in
  match parsed with
  | Some n => if int_max_str_digits <? count_digits t then Raise ValueError else Ok n
  | None => Raise ValueError
  end.

(** [l[i]] *)
Definition getitem {A} (l : list A) (i : nat) : result A :=
  match l !! i with
  | Some x => Ok x
  | None => Raise IndexError
  end.

(** [str(n)], which is what an f-string field does to an integer. *)
Definition str_of_int (n : Z) : string := pretty n.

End Py.

(** [float(s)], which raises [ValueError] where it gives [None], and the
    text an f-string field produces for a float. *)
Class FloatModel : Type := {
  PyFloat : Type;
  float : string → option PyFloat;
  float_str : PyFloat → string;
}.

(** ** Paths and files *)

(** A [pathlib.Path] (POSIX flavour) as its components, none of which is
    empty, "." or holds a "/"; an absolute path starts with an empty
    component for its root "/", with two for the root "//". *)
Definition Path : Type := list string.

(** The components of a path text: split on "/", the empty ones and the
    "." ones dropped. *)
Definition path_components (name : string) : list string :=
  List.filter (λ c, negb (Py.is_empty c || String.eqb c "."))
    (Py.split "/" name).

(** The root of a path text: none, "/" or, for exactly two leading
    slashes, "//". *)
Definition path_root (name : string) : option (list string) :=
  if Py.startswith "/" name then
    if Py.startswith "//" name && negb (Py.startswith "///" name)
    then Some [EmptyString; EmptyString]
    else Some [EmptyString]
  else None.

(** [p / name]: the components of [name] after those of [p], or [name]
    alone when it is absolute. *)
Definition path_join (p : Path) (name : string) : Path :=
  match path_root name with
  | Some root => root ++ path_components name
  | None => p ++ path_components name
  end.
Infix "//" := path_join (at level 40, left associativity).

(** [p.name]: the final component, empty for the empty path and for a
    root. *)
Definition path_name (p : Path) : string := List.last p EmptyString.

(** [with p.open() as file_handle: for line in file_handle], on a file
    system that maps the path of every file that can be opened to its
    content. *)
Definition open_lines (fs : gmap (list string) string) (p : Path) : result (list string) :=
  match fs !! p with
  | Some content => Ok (Py.readlines content)
  | None => Raise OSError
  end.

(** ** Generators and the [for] loop *)

(** What a finite generator does when driven to its end: the values it
    yields in order, then [StopIteration] ([Stop]) or an exception. *)
Inductive Gen (A : Type) : Type :=
  | Stop
  | Abort (e : Exn)
  | Yield (a : A) (rest : Gen A).
Arguments Stop {A}.
Arguments Abort {A} e.
Arguments Yield {A} a rest.

Fixpoint gen_items {A} (g : Gen A) : list A :=
  match g with
  | Yield a rest => a :: gen_items rest
  | _ => []
  end.

Fixpoint gen_end {A} (g : Gen A) : option Exn :=
  match g with
  | Stop => None
  | Abort e => Some e
  | Yield _ rest => gen_end rest
  end.

(** A procedure on state [S]: it returns, or raises leaving a state. *)
Inductive Outcome (S : Type) : Type :=
  | Returned (s : S)
  | Raised (e : Exn) (s : S).
Arguments Returned {S} s.
Arguments Raised {S} e s.

(** [for a in g: body(a)]. The generator is resumed only after the body
    has finished with the value, and never again once the body raises. *)
Fixpoint for_each {A S} (g : Gen A) (body : A → S → Outcome S) (s : S) : Outcome S :=
  match g with
  | Stop => Returned s
  | Abort e => Raised e s
  | Yield a rest =>
      match body a s with
      | Returned s' => for_each rest body s'
      | Raised e s' => Raised e s'
      end
  end.

(** ** ParseIDs *)

Fixpoint ParseIDs_loop (ndx : Z) (lines : list string) (metadata : gmap Z string)
  : gmap Z string :=
  match lines with
  | [] => metadata
  | line :: rest =>
      ParseIDs_loop (ndx + 1) rest
        (<[ndx := List.hd EmptyString (Py.split Py.TAB (Py.strip line))]> metadata)
  end.

Definition ParseIDs (fs : gmap (list string) string) (mtx_metafile : Path)
  : result (gmap Z string) :=
  let* lines := open_lines fs mtx_metafile in
  Ok (ParseIDs_loop 1 lines ∅).

(** ** StreamMatrixData *)

Definition default_batch_size : Z := 1024.

Section Streamer.
Context {FM : FloatModel}.

(** A normalized matrix row: [(int, int, float)]. *)
Definition Triple : Type := Z * Z * PyFloat.

Definition normalize (matrix_row : list string) : result Triple :=
  let* f0 := Py.getitem matrix_row 0 in
  let* r := Py.int f0 in
  let* f1 := Py.getitem matrix_row 1 in
  let* c := Py.int f1 in
  let* f2 := Py.getitem matrix_row 2 in
  let* v := from_option Ok (Raise ValueError) (float f2) in
  Ok (r, c, v).

(** The body of the generator from line [ndx] on. Every [yield] hands out
    the one list object [row_batch]; the value recorded at a [Yield] is its
    content while the generator is suspended there, which is what the
    consumer of a [for] loop reads. After the [yield] inside the loop the
    list is cleared and the current row appended. *)
Fixpoint StreamMatrixData_loop (batch_size ndx : Z) (lines : list string)
    (batch_stopndx : Z) (row_batch : list Triple) : Gen (list Triple) :=
  match lines with
  | [] => Yield row_batch Stop
  | line :: rest =>
      let stripped_line := Py.strip line in
      if Py.startswith "%" stripped_line then
        StreamMatrixData_loop batch_size (ndx + 1) rest batch_stopndx row_batch
      else
        let batch_stopndx :=
          if batch_stopndx =? 0 then ndx + (batch_size - 1) else batch_stopndx in
        if ndx >=? batch_stopndx then
          Yield row_batch
            match normalize (Py.split Py.SPACE stripped_line) with
            | Ok t => StreamMatrixData_loop batch_size (ndx + 1) rest 0 [t]
            | Raise e => Abort e
            end
        else
          match normalize (Py.split Py.SPACE stripped_line) with
          | Ok t =>
              StreamMatrixData_loop batch_size (ndx + 1) rest batch_stopndx
                (row_batch ++ [t])
          | Raise e => Abort e
          end
  end.

Definition StreamMatrixData_lines (lines : list string) (batch_size : Z)
  : Gen (list Triple) :=
  StreamMatrixData_loop batch_size 0 lines 0 [].

Definition StreamMatrixData (fs : gmap (list string) string) (mtx_datafile : Path)
    (batch_size : Z) : Gen (list Triple) :=
  match open_lines fs mtx_datafile with
  | Ok lines => StreamMatrixData_lines lines batch_size
  | Raise e => Abort e
  end.

(** [list(StreamMatrixData(...))]: every element of the collected list is
    the same list object, so once the generator is exhausted each of them
    shows the content of the final batch. *)
Definition StreamMatrixData_collected (g : Gen (list Triple))
  : result (list (list Triple)) :=
  match gen_end g with
  | Some e => Raise e
  | None =>
      Ok (replicate (length (gen_items g)) (List.last (gen_items g) []))
  end.

End Streamer.

(** ** ExprDB *)

(** The duckdb connection held by an [ExprDB]: [execute] runs one SQL
    statement on the database state, and may raise. *)
Class Engine : Type := {
  Conn : Type;
  execute : string → Conn → Outcome Conn;
}.

Section ExprDB.
Context {FM : FloatModel} {EN : Engine}.

Definition InsertData (tuple_list : list string) (table_name : string) (db : Conn)
  : Outcome Conn :=
  execute (" INSERT INTO " +:+ table_name +:+ " VALUES " +:+ Py.join "," tuple_list) db.

Definition InsertExprData (expr_tuples : list string) (db : Conn) : Outcome Conn :=
  InsertData expr_tuples "expr" db.

Definition InsertClusterData (cluster_tuples : list string) (db : Conn) : Outcome Conn :=
  InsertData cluster_tuples "clusters" db.

(** [d[k]] on a dict with integer keys. *)
Definition dict_get (d : gmap Z string) (k : Z) : result string :=
  match d !! k with
  | Some v => Ok v
  | None => Raise KeyError
  end.

(** The SQL tuple text of one expression record. *)
Definition expr_tuple (row_id col_id : string) (v : PyFloat) : string :=
  "('" +:+ row_id +:+ "', '" +:+ col_id +:+ "', " +:+ float_str v +:+ ")".

(** The inner loop of [LoadMTX]: map the indices of each row of the batch
    to their identifiers. *)
Fixpoint resolve_batch (row_meta col_meta : gmap Z string)
    (matrix_batch : list Triple) (tuple_list : list string) : result (list string) :=
  match matrix_batch with
  | [] => Ok tuple_list
  | matrix_row :: rest =>
      let* row_id := dict_get row_meta matrix_row.1.1 in
      let* col_id := dict_get col_meta matrix_row.1.2 in
      resolve_batch row_meta col_meta rest
        (tuple_list ++ [expr_tuple row_id col_id matrix_row.2])
  end.

(** One iteration of the outer loop of [LoadMTX]. *)
Definition load_batch (row_meta col_meta : gmap Z string)
    (matrix_batch : list Triple) (db : Conn) : Outcome Conn :=
  match resolve_batch row_meta col_meta matrix_batch [] with
  | Ok tuple_list => InsertExprData tuple_list db
  | Raise e => Raised e db
  end.

Definition LoadMTX (fs : gmap (list string) string) (mtx_dirpath : Path)
    (mtx_basename : string) (db : Conn) : Outcome Conn :=
  let dirpath := mtx_dirpath in
  let filepath_prefix := mtx_basename +:+ ".aggregated_filtered_counts" in
  match ParseIDs fs (dirpath // (filepath_prefix +:+ ".mtx_cols")) with
  | Raise e => Raised e db
  | Ok col_meta =>
      match ParseIDs fs (dirpath // (filepath_prefix +:+ ".mtx_rows")) with
      | Raise e => Raised e db
      | Ok row_meta =>
          for_each
            (StreamMatrixData fs (dirpath // (filepath_prefix +:+ "_matrix.mtx"))
               default_batch_size)
            (load_batch row_meta col_meta) db
      end
  end.

(** The SQL tuple text of one cluster record. *)
Definition cluster_tuple (mcluster dcluster : Z) (cell_id dataset : string) : string :=
  "(" +:+ "  " +:+ Py.str_of_int mcluster +:+ " ," +:+ Py.str_of_int dcluster
      +:+ " ,'" +:+ cell_id +:+ "'" +:+ " ,'" +:+ dataset +:+ "'" +:+ ")".

Fixpoint LoadClusters_loop (dir_path : Path) (lines : list string)
    (cluster_tuples : list string) : result (list string) :=
  match lines with
  | [] => Ok cluster_tuples
  | line :: rest =>
      match Py.split Py.TAB (Py.strip line) with
      | [mcluster_id; dcluster_id; cell_id] =>
          let* m := Py.int (Py.strip mcluster_id) in
          let* d := Py.int (Py.strip dcluster_id) in
          LoadClusters_loop dir_path rest
            (cluster_tuples ++
               [cluster_tuple m d (Py.strip cell_id) (path_name dir_path)])
      | _ => Raise ValueError
      end
  end.

Definition default_file_name : string := "clusters.tsv".

Definition LoadClusters (fs : gmap (list string) string) (dir_path : Path)
    (file_name : string) (db : Conn) : Outcome Conn :=
  let cluster_filepath := dir_path // file_name in
  match open_lines fs cluster_filepath with
  | Raise e => Raised e db
  | Ok lines =>
      match LoadClusters_loop dir_path lines [] with
      | Raise e => Raised e db
      | Ok cluster_tuples => InsertClusterData cluster_tuples db
      end
  end.

End ExprDB.

(** ** Reference instances of the two collaborators *)

(** Exact decimal fractions standing in for binary64. The instance reads
    the plain literals [[sign] digits [. digits]] and prints the shortest
    fixed-point form with at least one fractional digit; on such literals
    of at most 15 significant digits and magnitude in [1e-4, 1e16) this is
    what CPython's [float] and [repr] give. It rejects the other spellings
    CPython accepts (exponents, inf, nan, digit separators): it serves to
    run the scenarios below, and no general theorem is stated on it. *)
Module Decimal.

Record t : Type := Dec { negative : bool; mantissa : Z; scale : nat }.

Fixpoint scan_digits (acc : Z) (count : nat) (s : string) : Z * nat * string :=
  match s with
  | String c s' =>
      if Py.isdigit c then scan_digits (10 * acc + Py.digit_value c) (S count) s'
      else (acc, count, s)
  | EmptyString => (acc, count, s)
  end.

(** Drop the trailing zeros of the fraction. *)
Fixpoint trim (m : Z) (k : nat) : Z * nat :=
  match k with
  | O => (m, O)
  | S k' => if m mod 10 =? 0 then trim (m / 10) k' else (m, k)
  end.

Definition unsigned (s : string) : option (Z * nat) :=
  let '(ip, n1, r1) := scan_digits 0 0 s in
  match r1 with
  | EmptyString => if (0 <? n1)%nat then Some (ip, O) else None
  | String "." r2 =>
      let '(fp, n2, r3) := scan_digits ip 0 r2 in
      if Py.is_empty r3 && (0 <? n1 + n2)%nat then Some (trim fp n2) else None
  | _ => None
  end.

Definition parse (s : string) : option t :=
  let body := Py.c_strip s in
  let '(neg, digits) :=
    match body with
    | String "-" r => (true, r)
    | String "+" r => (false, r)
    | _ => (false, body)
    end in
  match unsigned digits with
  | Some (m, k) => Some (Dec neg m k)
  | None => None
  end.

(** The [k] low decimal digits of [m], most significant first. *)
Fixpoint low_digits (m : Z) (k : nat) (acc : string) : string :=
  match k with
  | O => acc
  | S k' => low_digits (m / 10) k' (String (ascii_of_N (Z.to_N (48 + m mod 10))) acc)
  end.

Definition print (x : t) : string :=
  (if negative x then "-" else "") +:+
  Py.str_of_int (mantissa x / 10 ^ Z.of_nat (scale x)) +:+ "." +:+
  match scale x with
  | O => "0"
  | S _ => low_digits (mantissa x) (scale x) ""
  end.

Definition model : FloatModel :=
  {| PyFloat := t; float := parse; float_str := print |}.

End Decimal.

(** A connection that keeps the statements it has run, in order. The one
    piece of SQL it checks is that something follows [VALUES]: an [INSERT]
    whose statement text stops there is a syntax error to duckdb's parser. *)
Module StatementLog.

Definition endswith (suffix s : string) : bool :=
  Py.startswith (String.rev suffix) (String.rev s).

Definition run (sql : string) (db : list string) : Outcome (list string) :=
  if endswith " VALUES " sql
  then Raised (DatabaseError "Parser Error: syntax error at end of input") db
  else Returned (db ++ [sql]).

Definition engine : Engine := {| Conn := list string; execute := run |}.

End StatementLog.

(** A statement log that, beyond the check above, refuses a statement it
    has already run, as the primary key of a table refuses the records of
    an INSERT run a second time. *)
Module UniqueLog.

Definition run (sql : string) (db : list string) : Outcome (list string) :=
  if existsb (String.eqb sql) db
  then Raised (DatabaseError "Constraint Error: duplicate key") db
  else StatementLog.run sql db.

Definition engine : Engine := {| Conn := list string; execute := run |}.

End UniqueLog.

(** ** Scenario files *)

(** A text file from its lines, each terminated by a newline. *)
Definition text_file (lines : list string) : string :=
  String.concat "" ((λ l, l +:+ String Py.NL "") <$> lines).

Definition tsv (fields : list string) : string :=
  Py.join (String Py.TAB "") fields.

(** The three files [LoadMTX] opens for a dataset, and nothing else. *)
Definition mtx_dataset (dir : Path) (base : string) (cols rows matrix : string)
  : gmap (list string) string :=
  <[dir // ((base +:+ ".aggregated_filtered_counts") +:+ ".mtx_cols") := cols]>
  (<[dir // ((base +:+ ".aggregated_filtered_counts") +:+ ".mtx_rows") := rows]>
  (<[dir // ((base +:+ ".aggregated_filtered_counts") +:+ "_matrix.mtx") := matrix]> ∅)).

(** Three data lines, no comment line. *)
Definition three_rows : list string :=
  ["1 1 1.0"; "2 2 2.0"; "3 3 3.0"].

Definition row (r c : Z) (m : Z) (k : nat) : Z * Z * Decimal.t :=
  (r, c, Decimal.Dec false m k).

(** A dataset whose matrix file has an entry of gene 1, 1023 comment
    lines, then an entry of a gene that the row index, of one line, does
    not have: the second entry is read at line index 1024, past the
    boundary 1023 set at the first one. *)
Definition unknown_gene_dataset : gmap (list string) string :=
  mtx_dataset ["data"] "ds" (text_file ["c1"; "c2"]) (text_file ["g1"])
    (text_file ("1 2 0.5" :: replicate 1023 "%" ++ ["2 1 1.0"])).

(** A first line, 1023 comment lines, then further lines: these are read
    from line index 1024 on, past the boundary 1023 that the default batch
    size sets at a first line that is an entry. *)
Definition spaced (first : string) (later : list string) : string :=
  text_file (first :: replicate 1023 "%" ++ later).

(** ** The vocabulary of the specification *)

(** The first character of the line that is not whitespace, if any. *)
Definition first_nonspace (line : string) : option ascii :=
  match Py.lstrip line with
  | String c _ => Some c
  | EmptyString => None
  end.

(** The test the streamer applies to a line. *)
Definition is_comment (line : string) : bool :=
  Py.startswith "%" (Py.strip line).

(** The lines of the file that are not comments, in file order. *)
Definition data_lines (lines : list string) : list string :=
  List.filter (λ line, negb (is_comment line)) lines.

(** The leading tab-delimited field: the characters before the first tab. *)
Fixpoint leading_field (s : string) : string :=
  match s with
  | EmptyString => EmptyString
  | String c s' => if Ascii.eqb c Py.TAB then EmptyString else String c (leading_field s')
  end.

Fixpoint has_tab (s : string) : bool :=
  match s with
  | EmptyString => false
  | String c s' => Ascii.eqb c Py.TAB || has_tab s'
  end.

(** Driving a list of values through a loop body. *)
Fixpoint gen_of_list {A} (l : list A) : Gen A :=
  match l with
  | [] => Stop
  | a :: l' => Yield a (gen_of_list l')
  end.

Section Rows.
Context {FM : FloatModel}.

(** The triple of one data line. *)
Definition parse_line (line : string) : result Triple :=
  normalize (Py.split Py.SPACE (Py.strip line)).

(** The triples of the data lines up to the first line that does not
    parse, and the exception that line raises. *)
Fixpoint parse_rows (lines : list string) : list Triple * option Exn :=
  match lines with
  | [] => ([], None)
  | line :: rest =>
      match parse_line line with
      | Ok t => let '(ts, e) := parse_rows rest in (t :: ts, e)
      | Raise e => ([], Some e)
      end
  end.

(** A row with at least three fields whose first three are numeric. *)
Definition numeric_row (fields : list string) : bool :=
  match fields with
  | f0 :: f1 :: f2 :: _ =>
      match Py.int f0, Py.int f1, float f2 with
      | Ok _, Ok _, Some _ => true
      | _, _, _ => false
      end
  | _ => false
  end.

(** The state of the streamer between two lines: either no boundary is set and at most
    the row that opened the batch is in it, or the rows accumulated fit
    before the boundary. *)
Definition within_bound (N ndx stop : Z) (batch : list Triple) : Prop :=
  (stop = 0 ∧ Z.of_nat (length batch) ≤ 1) ∨
  (0 < stop ∧ Z.of_nat (length batch) ≤ N ∧ Z.of_nat (length batch) + (stop - ndx) ≤ N).

End Rows.

(** Batching by count: the current batch [cur] takes [room] more rows; a
    row that arrives when it is full closes it and opens the next one,
    which then takes [refill] more. *)
Fixpoint batches_by_count {A} (refill room : nat) (cur : list A) (ts : list A)
  : list (list A) :=
  match ts with
  | [] => [cur]
  | t :: ts' =>
      match room with
      | O => cur :: batches_by_count refill refill [t] ts'
      | S room' => batches_by_count refill room' (cur ++ [t]) ts'
      end
  end.

Section Records.
Context {FM : FloatModel}.

(** The identifier index of a metadata file. *)
Definition index_of (content : string) : gmap Z string :=
  ParseIDs_loop 1 (Py.readlines content) ∅.

(** The record of a triple whose two ordinals are in the indexes. *)
Definition resolve_triple (row_meta col_meta : gmap Z string) (t : Triple)
  : option string :=
  match row_meta !! t.1.1, col_meta !! t.1.2 with
  | Some row_id, Some col_id => Some (expr_tuple row_id col_id t.2)
  | _, _ => None
  end.

End Records.

(** The record of a cluster line of three tab-separated fields whose
    first two are integers, tagged with [dataset]. *)
Definition cluster_record (dataset : string) (line : string) : option string :=
  match Py.split Py.TAB (Py.strip line) with
  | [mcluster_id; dcluster_id; cell_id] =>
      match Py.int (Py.strip mcluster_id), Py.int (Py.strip dcluster_id) with
      | Ok m, Ok d => Some (cluster_tuple m d (Py.strip cell_id) dataset)
      | _, _ => None
      end
  | _ => None
  end.

(** * Properties *)

(** ** Strings *)

Lemma split_nonempty sep s : Py.split sep s ≠ [].
Proof.
  destruct s as [|c s]; simpl; [done|].
  destruct (Ascii.eqb c sep); [done|].
  by destruct (Py.split sep s).
Qed.

Lemma split_head sep s :
  List.hd EmptyString (Py.split sep s) =
  (fix upto (s : string) : string :=
     match s with
     | EmptyString => EmptyString
     | String c s' => if Ascii.eqb c sep then EmptyString else String c (upto s')
     end) s.
Proof.
  induction s as [|c s IH]; simpl; [done|].
  destruct (Ascii.eqb c sep); [done|].
  rewrite <- IH. pose proof (split_nonempty sep s).
  by destruct (Py.split sep s).
Qed.

Lemma split_leading_field s :
  List.hd EmptyString (Py.split Py.TAB s) = leading_field s.
Proof.
  rewrite split_head. induction s as [|c s IH]; simpl; [done|].
  by rewrite IH.
Qed.

Lemma leading_field_no_tab s : has_tab s = false → leading_field s = s.
Proof.
  induction s as [|c s IH]; simpl; [done|].
  destruct (Ascii.eqb c Py.TAB); simpl; [done|].
  intros Hs. by rewrite IH.
Qed.

Lemma lstrip_head s c s' : Py.lstrip s = String c s' → Py.isspace c = false.
Proof.
  induction s as [|d s IH]; simpl; [done|].
  destruct (Py.isspace d) eqn:Hd; [done|].
  intros [= -> ->]. done.
Qed.

Lemma strip_head s :
  match Py.lstrip s with
  | String c s' => Py.strip s = String c (Py.rstrip s')
  | EmptyString => Py.strip s = EmptyString
  end.
Proof.
  unfold Py.strip. destruct (Py.lstrip s) as [|c s'] eqn:Hs; [done|].
  apply lstrip_head in Hs. simpl. by rewrite Hs.
Qed.

Lemma startswith_percent c r : Py.startswith "%" (String c r) = Ascii.eqb "%" c.
Proof. cbn [Py.startswith]. apply andb_true_r. Qed.

Lemma is_comment_first_nonspace line :
  is_comment line = true ↔ first_nonspace line = Some "%"%char.
Proof.
  unfold is_comment, first_nonspace.
  pose proof (strip_head line) as Hs.
  destruct (Py.lstrip line) as [|c s']; rewrite Hs.
  { split; intros [=]. }
  rewrite startswith_percent. destruct (Ascii.eqb_spec "%" c) as [<-|Hne].
  - done.
  - split; [done|]. intros [= ->]. done.
Qed.

(** ** The batching generator *)

Section StreamerFacts.
Context {FM : FloatModel}.

Lemma StreamMatrixData_loop_comment N ndx line rest stop batch :
  is_comment line = true →
  StreamMatrixData_loop N ndx (line :: rest) stop batch =
  StreamMatrixData_loop N (ndx + 1) rest stop batch.
Proof.
  unfold is_comment. intros Hc. cbn [StreamMatrixData_loop]. by rewrite Hc.
Qed.

Lemma StreamMatrixData_loop_data N ndx line rest stop batch :
  is_comment line = false →
  StreamMatrixData_loop N ndx (line :: rest) stop batch =
  let stop1 := if stop =? 0 then ndx + (N - 1) else stop in
  if ndx >=? stop1 then
    Yield batch
      match parse_line line with
      | Ok t => StreamMatrixData_loop N (ndx + 1) rest 0 [t]
      | Raise e => Abort e
      end
  else
    match parse_line line with
    | Ok t => StreamMatrixData_loop N (ndx + 1) rest stop1 (batch ++ [t])
    | Raise e => Abort e
    end.
Proof.
  unfold is_comment. intros Hc. cbn [StreamMatrixData_loop]. by rewrite Hc.
Qed.

Lemma data_lines_comment line rest :
  is_comment line = true → data_lines (line :: rest) = data_lines rest.
Proof. unfold data_lines. cbn [List.filter]. by intros ->. Qed.

Lemma data_lines_data line rest :
  is_comment line = false → data_lines (line :: rest) = line :: data_lines rest.
Proof. unfold data_lines. cbn [List.filter]. by intros ->. Qed.

(** How the generator ends is decided by the data lines alone. *)
Lemma stream_loop_end N lines : ∀ ndx stop batch,
  gen_end (StreamMatrixData_loop N ndx lines stop batch) =
  (parse_rows (data_lines lines)).2.
Proof.
  induction lines as [|line rest IH]; intros ndx stop batch; [done|].
  destruct (is_comment line) eqn:Hc.
  - rewrite StreamMatrixData_loop_comment, data_lines_comment by done. apply IH.
  - rewrite StreamMatrixData_loop_data, data_lines_data by done.
    cbn [parse_rows]. cbv zeta.
    destruct (ndx >=? _); cbn [gen_end]; destruct (parse_line line) as [t|e];
      try done; rewrite IH; by destruct (parse_rows (data_lines rest)).
Qed.

(** When every data line parses, the batches put end to end are the rows
    accumulated so far followed by the triples of the remaining lines. *)
Lemma stream_loop_rows N lines : ∀ ndx stop batch,
  (parse_rows (data_lines lines)).2 = None →
  concat (gen_items (StreamMatrixData_loop N ndx lines stop batch)) =
  batch ++ (parse_rows (data_lines lines)).1.
Proof.
  induction lines as [|line rest IH]; intros ndx stop batch.
  { intros _. cbn. by rewrite !app_nil_r. }
  destruct (is_comment line) eqn:Hc.
  - rewrite StreamMatrixData_loop_comment, data_lines_comment by done. apply IH.
  - rewrite StreamMatrixData_loop_data, data_lines_data by done.
    cbn [parse_rows]. cbv zeta.
    destruct (parse_line line) as [t|e]; [|by destruct (ndx >=? _)].
    destruct (parse_rows (data_lines rest)) as [ts oe] eqn:Hrows.
    cbn [fst snd]. intros ->. specialize (IH (ndx + 1)).
    cbn [fst snd] in IH.
    destruct (ndx >=? _); cbn [gen_items concat].
    + by rewrite IH.
    + rewrite IH by done. by rewrite <- app_assoc.
Qed.

(** In every case what has been emitted is a prefix of the parsed rows. *)
Lemma stream_loop_prefix N lines : ∀ ndx stop batch,
  concat (gen_items (StreamMatrixData_loop N ndx lines stop batch))
    `prefix_of` batch ++ (parse_rows (data_lines lines)).1.
Proof.
  induction lines as [|line rest IH]; intros ndx stop batch.
  { cbn. by rewrite !app_nil_r. }
  destruct (is_comment line) eqn:Hc.
  - rewrite StreamMatrixData_loop_comment, data_lines_comment by done. apply IH.
  - rewrite StreamMatrixData_loop_data, data_lines_data by done.
    cbn [parse_rows]. cbv zeta.
    destruct (parse_line line) as [t|e].
    + destruct (parse_rows (data_lines rest)) as [ts oe] eqn:Hrows.
      cbn [fst]. destruct (ndx >=? _); cbn [gen_items concat].
      * apply prefix_app, (IH (ndx + 1) 0 [t]).
      * specialize (IH (ndx + 1) (if stop =? 0 then ndx + (N - 1) else stop)
                      (batch ++ [t])).
        rewrite <- app_assoc in IH. apply IH.
    + cbn [fst]. rewrite app_nil_r.
      destruct (ndx >=? _); cbn [gen_items concat].
      * by rewrite app_nil_r.
      * apply prefix_nil.
Qed.

(** A file without data lines: one empty batch. *)
Lemma stream_loop_no_data N lines : ∀ ndx stop batch,
  data_lines lines = [] →
  StreamMatrixData_loop N ndx lines stop batch = Yield batch Stop.
Proof.
  induction lines as [|line rest IH]; intros ndx stop batch; [done|].
  destruct (is_comment line) eqn:Hc.
  - rewrite StreamMatrixData_loop_comment, data_lines_comment by done. apply IH.
  - by rewrite data_lines_data.
Qed.

End StreamerFacts.

(** ** Comment lines at the head of the file, and the size of a batch *)

Section BatchBoundaries.
Context {FM : FloatModel}.

Local Ltac zcases :=
  repeat match goal with
    | |- context [?a =? ?b] => destruct (Z.eqb_spec a b)
    | |- context [?a >=? ?b] => rewrite (Z.geb_leb a b); destruct (Z.leb_spec b a)
    end; try lia.

(** Moving the lines down by [k] positions moves the boundary with them. *)
Lemma stream_loop_shift N k lines :
  1 ≤ N → 0 ≤ k → ∀ ndx stop batch, 0 ≤ ndx → 0 ≤ stop →
  StreamMatrixData_loop N (ndx + k) lines (if stop =? 0 then 0 else stop + k) batch =
  StreamMatrixData_loop N ndx lines stop batch.
Proof.
  intros HN Hk. induction lines as [|line rest IH]; intros ndx stop batch Hn Hs; [done|].
  assert (Hstep : ndx + k + 1 = ndx + 1 + k) by lia.
  destruct (is_comment line) eqn:Hc.
  - rewrite !StreamMatrixData_loop_comment by done. rewrite Hstep. by apply IH; lia.
  - rewrite !StreamMatrixData_loop_data by done. cbv zeta. rewrite Hstep.
    pose proof (IH (ndx + 1) 0 [] ) as IH0.
    destruct (parse_line line) as [t|e].
    + zcases; try (f_equal; apply (IH (ndx + 1) 0 [t]); lia).
      * rewrite <- (IH (ndx + 1) (ndx + (N - 1)) (batch ++ [t])) by lia.
        f_equal. zcases.
      * rewrite <- (IH (ndx + 1) stop (batch ++ [t])) by lia.
        f_equal. zcases.
    + zcases; done.
Qed.

Lemma stream_loop_skip N pre rest : ∀ ndx stop batch,
  Forall (λ line, is_comment line = true) pre →
  StreamMatrixData_loop N ndx (pre ++ rest) stop batch =
  StreamMatrixData_loop N (ndx + Z.of_nat (length pre)) rest stop batch.
Proof.
  induction pre as [|line pre IH]; intros ndx stop batch Hpre.
  { cbn [app length]. f_equal. lia. }
  apply Forall_cons in Hpre as [Hc Hpre]. cbn [app].
  rewrite StreamMatrixData_loop_comment, IH by done. f_equal.
  rewrite length_cons. lia.
Qed.

Lemma stream_leading_comments N pre rest :
  1 ≤ N → Forall (λ line, is_comment line = true) pre →
  StreamMatrixData_lines (pre ++ rest) N = StreamMatrixData_lines rest N.
Proof.
  intros HN Hpre. unfold StreamMatrixData_lines.
  rewrite stream_loop_skip by done.
  apply (stream_loop_shift N (Z.of_nat (length pre)) rest HN (Zle_0_nat _) 0 0 []); lia.
Qed.

Lemma stream_loop_bound N lines :
  1 ≤ N → ∀ ndx stop batch, 0 ≤ ndx → within_bound N ndx stop batch →
  Forall (λ b, Z.of_nat (length b) ≤ N)
    (gen_items (StreamMatrixData_loop N ndx lines stop batch)).
Proof.
  intros HN. induction lines as [|line rest IH]; intros ndx stop batch Hn Hinv.
  { cbn. apply Forall_cons. split; [|done]. destruct Hinv; lia. }
  destruct (is_comment line) eqn:Hc.
  - rewrite StreamMatrixData_loop_comment by done.
    apply IH; [lia|]. destruct Hinv; [by left|right; lia].
  - rewrite StreamMatrixData_loop_data by done. cbv zeta.
    assert (Hone : within_bound N (ndx + 1) 0 (@nil Triple)) by (left; simpl; lia).
    destruct (parse_line line) as [t|e].
    + zcases; cbn [gen_items];
        try (apply Forall_cons; split; [destruct Hinv; lia|]);
        apply IH; try lia; unfold within_bound in *;
        rewrite ?length_app; cbn [length]; lia.
    + zcases; cbn [gen_items]; try done;
        (apply Forall_cons; split; [destruct Hinv; lia|done]).
Qed.

(** No batch is larger than the batch size. *)
Lemma StreamMatrixData_batches_bounded N lines :
  1 ≤ N →
  Forall (λ b, Z.of_nat (length b) ≤ N) (gen_items (StreamMatrixData_lines lines N)).
Proof.
  intros HN. apply stream_loop_bound; [done..|]. left. cbn. lia.
Qed.

End BatchBoundaries.

(** ** Parsing one row *)

Lemma int_raises s e : Py.int s = Raise e → e = ValueError.
Proof.
  unfold Py.int.
  destruct (match Py.c_strip s with EmptyString => _ | String _ _ => _ end);
    [|congruence].
  destruct (_ <? _); congruence.
Qed.

Section RowFacts.
Context {FM : FloatModel}.

Lemma normalize_numeric row : numeric_row row = true → ∃ t, normalize row = Ok t.
Proof.
  destruct row as [|f0 [|f1 [|f2 extra]]]; try done.
  unfold numeric_row, normalize. cbn.
  destruct (Py.int f0) as [r|]; [|done]. destruct (Py.int f1) as [c|]; [|done].
  destruct (float f2) as [v|]; [|done]. cbn. eauto.
Qed.

Lemma normalize_three f0 f1 f2 extra r c v :
  Py.int f0 = Ok r → Py.int f1 = Ok c → float f2 = Some v →
  normalize (f0 :: f1 :: f2 :: extra) = Ok (r, c, v).
Proof. unfold normalize. cbn. by intros -> -> ->. Qed.

Lemma normalize_malformed row :
  numeric_row row = false →
  ∃ e, normalize row = Raise e ∧ is_ParseError e = true.
Proof.
  unfold numeric_row, normalize.
  destruct row as [|f0 rest]; cbn; [eauto|].
  destruct (Py.int f0) as [r|e0] eqn:H0; cbn;
    [|apply int_raises in H0 as ->; eauto].
  destruct rest as [|f1 rest]; cbn; [eauto|].
  destruct (Py.int f1) as [c|e1] eqn:H1; cbn;
    [|apply int_raises in H1 as ->; eauto].
  destruct rest as [|f2 rest]; cbn; [eauto|].
  destruct (float f2) as [v|]; cbn; [done|eauto].
Qed.

Lemma parse_rows_all lines ts :
  Forall2 (λ line t, parse_line line = Ok t) lines ts →
  parse_rows lines = (ts, None).
Proof.
  induction 1 as [|line t lines ts Hl _ IH]; [done|].
  cbn [parse_rows]. by rewrite Hl, IH.
Qed.

Lemma parse_rows_complete lines : ∀ ts,
  parse_rows lines = (ts, None) →
  Forall2 (λ line t, parse_line line = Ok t) lines ts.
Proof.
  induction lines as [|line rest IH]; intros ts; cbn [parse_rows].
  { intros [= <-]. constructor. }
  destruct (parse_line line) as [t|e] eqn:Hl; [|done].
  destruct (parse_rows rest) as [ts' oe]. intros [= <- ->].
  constructor; [done|by apply IH].
Qed.

Lemma parse_rows_stuck lines ts line rest e :
  Forall2 (λ line t, parse_line line = Ok t) lines ts →
  parse_line line = Raise e →
  parse_rows (lines ++ line :: rest) = (ts, Some e).
Proof.
  intros Hall Hbad. induction Hall as [|l t lines ts Hl _ IH]; cbn [app parse_rows].
  - by rewrite Hbad.
  - by rewrite Hl, IH.
Qed.

Lemma data_lines_app pre post : data_lines (pre ++ post) = data_lines pre ++ data_lines post.
Proof. apply List.filter_app. Qed.

End RowFacts.

(** ** The [for] loop *)

Lemma for_each_returns {A S} (g : Gen A) (body : A → S → Outcome S) s :
  gen_end g = None →
  for_each g body s = for_each (gen_of_list (gen_items g)) body s.
Proof.
  revert s. induction g as [| |a rest IH]; intros s; cbn; [done..|].
  intros Hend. destruct (body a s); [by apply IH|done].
Qed.

(** The loop stops at the first batch on which the body raises: the
    state is the one left by the batches before it. *)
Lemma for_each_raises {A S} (g : Gen A) (body : A → S → Outcome S) pre b post s s' e s'' :
  gen_items g = pre ++ b :: post →
  for_each (gen_of_list pre) body s = Returned s' →
  body b s' = Raised e s'' →
  for_each g body s = Raised e s''.
Proof.
  revert g s. induction pre as [|a pre IH]; intros g s Hitems Hpre Hb.
  - destruct g as [| |a rest]; try done. cbn in *.
    injection Hitems as -> _. injection Hpre as ->. by rewrite Hb.
  - destruct g as [| |a' rest]; try done. cbn in *.
    injection Hitems as -> Hitems. destruct (body a s) as [s1|]; [|done].
    by eapply IH.
Qed.

(** ** The identifier index *)

Lemma ParseIDs_loop_lookup lines : ∀ ndx (m : gmap Z string) i,
  ParseIDs_loop ndx lines m !! i =
  if decide (ndx ≤ i < ndx + Z.of_nat (length lines))
  then (λ line, leading_field (Py.strip line)) <$> lines !! Z.to_nat (i - ndx)
  else m !! i.
Proof.
  induction lines as [|line rest IH]; intros ndx m i.
  { cbn. case_decide; [lia|done]. }
  cbn [ParseIDs_loop]. rewrite IH, split_leading_field, length_cons.
  destruct (decide (i = ndx)) as [->|Hne].
  - rewrite Z.sub_diag. repeat case_decide; try lia.
    by rewrite lookup_insert_eq.
  - repeat case_decide; try lia.
    + replace (Z.to_nat (i - ndx)) with (S (Z.to_nat (i - (ndx + 1)))) by lia. done.
    + by rewrite lookup_insert_ne.
Qed.

Lemma ParseIDs_loop_size lines : ∀ ndx (m : gmap Z string),
  (∀ j, ndx ≤ j → m !! j = None) →
  size (ParseIDs_loop ndx lines m) = (size m + length lines)%nat.
Proof.
  induction lines as [|line rest IH]; intros ndx m Hfresh.
  { cbn. lia. }
  cbn [ParseIDs_loop]. rewrite IH.
  - rewrite map_size_insert_None by (apply Hfresh; lia). rewrite length_cons. lia.
  - intros j Hj. rewrite lookup_insert_ne by lia. apply Hfresh. lia.
Qed.

Lemma data_lines_idemp lines : data_lines (data_lines lines) = data_lines lines.
Proof.
  induction lines as [|l lines IH]; [done|].
  destruct (is_comment l) eqn:Hl.
  - by rewrite data_lines_comment.
  - by rewrite !data_lines_data, IH.
Qed.

Lemma data_lines_none pre :
  data_lines pre = [] → Forall (λ line, is_comment line = true) pre.
Proof.
  induction pre as [|l pre IH]; [constructor|].
  destruct (is_comment l) eqn:Hl.
  - rewrite data_lines_comment by done. intros Hpre. constructor; [done|by apply IH].
  - by rewrite data_lines_data.
Qed.

Lemma data_lines_comments pre :
  Forall (λ line, is_comment line = true) pre → data_lines pre = [].
Proof.
  induction 1 as [|l pre Hl _ IH]; [done|]. by rewrite data_lines_comment.
Qed.

(** * The claims *)

Section StreamerClaims.
Context {FM : FloatModel}.

(** C1: for every matrix file and every batch size N >= 1, the batches
    emitted by StreamMatrixData, read one after the other as a [for] loop
    does, cover every non-comment line: put end to end in emission order
    they are exactly the parsed triples of the non-comment lines in file
    order, nothing duplicated or dropped, and their total count is the
    count of non-comment lines. The generator then stops normally. *)
Theorem StreamMatrixData_covers_data_lines fs path content N ts :
  fs !! path = Some content →
  1 ≤ N →
  Forall2 (λ line t, parse_line line = Ok t) (data_lines (Py.readlines content)) ts →
  gen_end (StreamMatrixData fs path N) = None ∧
  concat (gen_items (StreamMatrixData fs path N)) = ts ∧
  length (concat (gen_items (StreamMatrixData fs path N))) =
    length (data_lines (Py.readlines content)).
Proof.
  intros Hfile _ Hrows.
  unfold StreamMatrixData, open_lines, StreamMatrixData_lines. rewrite Hfile.
  pose proof (parse_rows_all _ _ Hrows) as Hall.
  rewrite stream_loop_end, stream_loop_rows by (by rewrite Hall).
  rewrite Hall. cbn [fst snd app]. repeat split.
  symmetry. by eapply Forall2_length.
Qed.

(** C4 (amended): a line whose first non-whitespace character is '%' is
    never parsed and contributes no triple: the batches put end to end are
    the triples of the file with the comment lines removed. Comment lines
    ahead of the data leave the emitted batches unchanged. (Comment lines
    between data lines do advance the line index that sets the batch
    boundaries.) *)
Theorem comment_lines_contribute_no_triple N pre rest ts :
  1 ≤ N →
  Forall (λ line, first_nonspace line = Some "%"%char) pre →
  Forall2 (λ line t, parse_line line = Ok t) (data_lines rest) ts →
  StreamMatrixData_lines (pre ++ rest) N = StreamMatrixData_lines rest N ∧
  concat (gen_items (StreamMatrixData_lines rest N)) = ts ∧
  concat (gen_items (StreamMatrixData_lines (data_lines rest) N)) = ts ∧
  data_lines (pre ++ rest) = data_lines rest.
Proof.
  intros HN Hpre Hrows.
  assert (Hpre' : Forall (λ line, is_comment line = true) pre).
  { eapply Forall_impl; [done|]. intros line. apply is_comment_first_nonspace. }
  pose proof (parse_rows_all _ _ Hrows) as Hall.
  pose proof (data_lines_idemp rest) as Hidem.
  split; [by apply stream_leading_comments|].
  unfold StreamMatrixData_lines.
  rewrite !stream_loop_rows by (by rewrite ?Hidem, Hall).
  rewrite Hidem, Hall. repeat split.
  rewrite data_lines_app.
  by rewrite data_lines_comments.
Qed.

(** C7 (amended): each retained line is split on single spaces and its
    first three fields are parsed as integer, integer and float; fields
    after the third are ignored. A line with fewer than three fields, or
    with a non-numeric one among the first three, raises ValueError or
    IndexError, which ends the stream there: the generator yields nothing
    after the failure and what it has emitted is a prefix of the triples of
    the lines before. *)
Theorem malformed_line_aborts_stream N pre line post ts :
  Forall2 (λ l t, parse_line l = Ok t) (data_lines pre) ts →
  is_comment line = false →
  (∀ f0 f1 f2 extra r c v,
     Py.split Py.SPACE (Py.strip line) = f0 :: f1 :: f2 :: extra →
     Py.int f0 = Ok r → Py.int f1 = Ok c → float f2 = Some v →
     parse_line line = Ok (r, c, v)) ∧
  (numeric_row (Py.split Py.SPACE (Py.strip line)) = false →
   ∃ e, parse_line line = Raise e ∧ is_ParseError e = true ∧
        gen_end (StreamMatrixData_lines (pre ++ line :: post) N) = Some e ∧
        concat (gen_items (StreamMatrixData_lines (pre ++ line :: post) N))
          `prefix_of` ts).
Proof.
  intros Hpre Hc. split.
  - intros f0 f1 f2 extra r c v Hsplit H0 H1 H2. unfold parse_line.
    rewrite Hsplit. by apply normalize_three.
  - intros Hbad. destruct (normalize_malformed _ Hbad) as (e & He & Hk).
    exists e. split; [done|]. split; [done|].
    assert (Hrows : parse_rows (data_lines (pre ++ line :: post)) = (ts, Some e)).
    { rewrite data_lines_app, data_lines_data by done.
      by apply parse_rows_stuck. }
    unfold StreamMatrixData_lines. split.
    + by rewrite stream_loop_end, Hrows.
    + pose proof (stream_loop_prefix N (pre ++ line :: post) 0 0 []) as Hp.
      by rewrite Hrows in Hp.
Qed.

End StreamerClaims.

(** C6: for every metadata file, the index built by ParseIDs has as many
    entries as the file has lines, its keys are exactly the ordinals 1 to
    the line count, and ordinal i maps to the leading tab-delimited field
    of line i once whitespace is trimmed at both ends of the line, which is
    the whole trimmed line when it has no tab. *)
Theorem ParseIDs_index fs path content :
  fs !! path = Some content →
  ∃ index : gmap Z string,
    ParseIDs fs path = Ok index ∧
    size index = length (Py.readlines content) ∧
    (∀ i, is_Some (index !! i) ↔ 1 ≤ i ≤ Z.of_nat (length (Py.readlines content))) ∧
    (∀ (n : nat) line,
       Py.readlines content !! n = Some line →
       index !! (Z.of_nat n + 1) = Some (leading_field (Py.strip line)) ∧
       (has_tab (Py.strip line) = false →
        index !! (Z.of_nat n + 1) = Some (Py.strip line))).
Proof.
  intros Hfile. unfold ParseIDs, open_lines. rewrite Hfile. cbn [bind].
  set (lines := Py.readlines content).
  exists (ParseIDs_loop 1 lines ∅). split; [done|]. split; [|split].
  - rewrite ParseIDs_loop_size by (intros; apply lookup_empty).
    by rewrite map_size_empty.
  - intros i. rewrite ParseIDs_loop_lookup. case_decide as Hi.
    + split; [lia|]. intros _.
      destruct (lookup_lt_is_Some_2 lines (Z.to_nat (i - 1))) as [line ->]; [lia|].
      by eexists.
    + rewrite lookup_empty. split; [by intros [? ?]|lia].
  - intros n line Hline.
    assert (Hfield : ParseIDs_loop 1 lines ∅ !! (Z.of_nat n + 1) =
                     Some (leading_field (Py.strip line))).
    { rewrite ParseIDs_loop_lookup. apply lookup_lt_Some in Hline as Hlt.
      case_decide; [|lia].
      replace (Z.to_nat (Z.of_nat n + 1 - 1)) with n by lia. by rewrite Hline. }
    split; [done|]. intros Hnotab. by rewrite Hfield, leading_field_no_tab.
Qed.

Section LoaderClaims.
Context {FM : FloatModel} {EN : Engine}.

Lemma resolve_batch_unknown (row_meta col_meta : gmap Z string) batch :
  ∀ tuple_list r c v,
  (r, c, v) ∈ batch →
  row_meta !! r = None ∨ col_meta !! c = None →
  resolve_batch row_meta col_meta batch tuple_list = Raise KeyError.
Proof.
  induction batch as [|[[r0 c0] v0] rest IH]; intros acc r c v Hin Hbad.
  { by apply elem_of_nil in Hin. }
  cbn [resolve_batch fst snd]. unfold dict_get.
  destruct (row_meta !! r0) as [row_id|] eqn:Hr; [|done].
  destruct (col_meta !! c0) as [col_id|] eqn:Hc; [|done].
  cbn [bind]. apply elem_of_cons in Hin as [[= -> -> ->]|Hin].
  - destruct Hbad; congruence.
  - by eapply IH.
Qed.

(** C8: during LoadMTX, when a triple of a batch carries a row or column
    ordinal absent from its index, resolution raises KeyError (a
    LookupError) before the bulk insert of that batch is issued: the load
    stops with the database as the inserts of the earlier batches left it,
    nothing of the failing batch inserted. *)
Theorem LoadMTX_unknown_ordinal fs dir base col_meta row_meta pre b post r c v db db' :
  ParseIDs fs (dir // ((base +:+ ".aggregated_filtered_counts") +:+ ".mtx_cols"))
    = Ok col_meta →
  ParseIDs fs (dir // ((base +:+ ".aggregated_filtered_counts") +:+ ".mtx_rows"))
    = Ok row_meta →
  gen_items
    (StreamMatrixData fs
       (dir // ((base +:+ ".aggregated_filtered_counts") +:+ "_matrix.mtx"))
       default_batch_size) = pre ++ b :: post →
  for_each (gen_of_list pre) (load_batch row_meta col_meta) db = Returned db' →
  (r, c, v) ∈ b →
  row_meta !! r = None ∨ col_meta !! c = None →
  resolve_batch row_meta col_meta b [] = Raise KeyError ∧
  is_LookupError KeyError = true ∧
  load_batch row_meta col_meta b db' = Raised KeyError db' ∧
  LoadMTX fs dir base db = Raised KeyError db'.
Proof.
  intros Hcols Hrows Hitems Hpre Hin Hbad.
  pose proof (resolve_batch_unknown row_meta col_meta b [] r c v Hin Hbad) as Hres.
  assert (Hb : load_batch row_meta col_meta b db' = Raised KeyError db').
  { unfold load_batch. by rewrite Hres. }
  repeat split; try done.
  unfold LoadMTX. rewrite Hcols, Hrows. by eapply for_each_raises.
Qed.

(** C3 (amended): for a matrix file with zero data lines (empty or all
    comments) StreamMatrixData yields exactly one empty batch, and LoadMTX
    resolving it builds an empty record list and still issues the bulk
    insert, whose statement carries no tuple after VALUES; the load ends
    as the database's execute ends on that statement. *)
Theorem LoadMTX_no_data_lines fs dir base cols rows matrix db :
  fs !! (dir // ((base +:+ ".aggregated_filtered_counts") +:+ ".mtx_cols"))
    = Some cols →
  fs !! (dir // ((base +:+ ".aggregated_filtered_counts") +:+ ".mtx_rows"))
    = Some rows →
  fs !! (dir // ((base +:+ ".aggregated_filtered_counts") +:+ "_matrix.mtx"))
    = Some matrix →
  data_lines (Py.readlines matrix) = [] →
  (∀ N, StreamMatrixData fs
          (dir // ((base +:+ ".aggregated_filtered_counts") +:+ "_matrix.mtx")) N
        = Yield [] Stop) ∧
  LoadMTX fs dir base db = InsertExprData [] db ∧
  InsertExprData [] db = execute " INSERT INTO expr VALUES " db.
Proof.
  intros Hcols Hrows Hmatrix Hnone.
  assert (Hstream : ∀ N, StreamMatrixData fs
          (dir // ((base +:+ ".aggregated_filtered_counts") +:+ "_matrix.mtx")) N
        = Yield [] Stop).
  { intros N. unfold StreamMatrixData, open_lines, StreamMatrixData_lines.
    rewrite Hmatrix. by apply stream_loop_no_data. }
  split; [done|]. split; [|done].
  unfold LoadMTX, ParseIDs, open_lines. rewrite Hcols, Hrows. cbn [bind].
  rewrite Hstream. cbn [for_each]. unfold load_batch. cbn [resolve_batch].
  by destruct (InsertExprData [] db).
Qed.

(** C10: for a cluster file with zero lines LoadClusters does not skip the
    insert: it calls the bulk insert with an empty record list, producing
    an INSERT statement with no tuple after VALUES; the database rejecting
    that statement, the load fails with its error and no ClusterRecord is
    inserted. *)
Theorem LoadClusters_empty_file fs dir_path file_name content db msg :
  fs !! (dir_path // file_name) = Some content →
  Py.readlines content = [] →
  execute " INSERT INTO clusters VALUES " db = Raised (DatabaseError msg) db →
  LoadClusters_loop dir_path (Py.readlines content) [] = Ok [] ∧
  LoadClusters fs dir_path file_name db = InsertClusterData [] db ∧
  InsertClusterData [] db = execute " INSERT INTO clusters VALUES " db ∧
  LoadClusters fs dir_path file_name db = Raised (DatabaseError msg) db.
Proof.
  intros Hfile Hlines Hreject.
  assert (Hload : LoadClusters fs dir_path file_name db = InsertClusterData [] db).
  { unfold LoadClusters, open_lines. by rewrite Hfile, Hlines. }
  rewrite Hlines. repeat split; try done.
  by rewrite Hload.
Qed.

End LoaderClaims.

Section Scenarios.
Context {FM : FloatModel} {EN : Engine}.

(** C9: for a cluster file holding the lines '1\t10\tcellA' and
    '1\t11\tcellB' in a directory whose final path component is datasetX,
    LoadClusters produces exactly the records (1, 10, cellA, datasetX) and
    (1, 11, cellB, datasetX), each line read as three tab-separated trimmed
    fields and tagged with the directory's name, and issues them as one
    bulk insert for the whole file. *)
Theorem LoadClusters_two_cells fs dir_path file_name db :
  path_name dir_path = "datasetX" →
  fs !! (dir_path // file_name) =
    Some (text_file [tsv ["1"; "10"; "cellA"]; tsv ["1"; "11"; "cellB"]]) →
  LoadClusters_loop dir_path
    (Py.readlines (text_file [tsv ["1"; "10"; "cellA"]; tsv ["1"; "11"; "cellB"]])) []
    = Ok [cluster_tuple 1 10 "cellA" "datasetX"; cluster_tuple 1 11 "cellB" "datasetX"] ∧
  LoadClusters fs dir_path file_name db =
    InsertClusterData
      [cluster_tuple 1 10 "cellA" "datasetX"; cluster_tuple 1 11 "cellB" "datasetX"] db ∧
  LoadClusters fs dir_path file_name db =
    execute " INSERT INTO clusters VALUES (  1 ,10 ,'cellA' ,'datasetX'),(  1 ,11 ,'cellB' ,'datasetX')" db.
Proof.
  intros Hname Hfile.
  assert (Hloop : LoadClusters_loop dir_path
    (Py.readlines (text_file [tsv ["1"; "10"; "cellA"]; tsv ["1"; "11"; "cellB"]])) []
    = Ok [cluster_tuple 1 10 "cellA" "datasetX"; cluster_tuple 1 11 "cellB" "datasetX"]).
  { replace (Py.readlines _) with
      [tsv ["1"; "10"; "cellA"] +:+ String Py.NL ""; tsv ["1"; "11"; "cellB"] +:+ String Py.NL ""]
      by (vm_compute; reflexivity).
    cbn [LoadClusters_loop]. rewrite Hname. vm_compute. reflexivity. }
  assert (Hload : LoadClusters fs dir_path file_name db =
    InsertClusterData
      [cluster_tuple 1 10 "cellA" "datasetX"; cluster_tuple 1 11 "cellB" "datasetX"] db).
  { unfold LoadClusters, open_lines. by rewrite Hfile, Hloop. }
  split; [done|]. split; [done|]. rewrite Hload. reflexivity.
Qed.

(** C5: round trip. For a column index file with lines c1, c2, c3, a row
    index file with lines g1, g2 and a matrix file with lines '1 2 0.5' and
    '2 3 1.25', LoadMTX produces exactly the records (g1, c2, 0.5) and
    (g2, c3, 1.25), in that order, the gene identifier resolved through the
    row index and the cell identifier through the column index. *)
Theorem LoadMTX_round_trip fs dir base db v1 v2 :
  fs !! (dir // ((base +:+ ".aggregated_filtered_counts") +:+ ".mtx_cols"))
    = Some (text_file ["c1"; "c2"; "c3"]) →
  fs !! (dir // ((base +:+ ".aggregated_filtered_counts") +:+ ".mtx_rows"))
    = Some (text_file ["g1"; "g2"]) →
  fs !! (dir // ((base +:+ ".aggregated_filtered_counts") +:+ "_matrix.mtx"))
    = Some (text_file ["1 2 0.5"; "2 3 1.25"]) →
  float "0.5" = Some v1 → float_str v1 = "0.5" →
  float "1.25" = Some v2 → float_str v2 = "1.25" →
  StreamMatrixData fs
    (dir // ((base +:+ ".aggregated_filtered_counts") +:+ "_matrix.mtx"))
    default_batch_size = Yield [(1, 2, v1); (2, 3, v2)] Stop ∧
  LoadMTX fs dir base db =
    InsertExprData [expr_tuple "g1" "c2" v1; expr_tuple "g2" "c3" v2] db ∧
  LoadMTX fs dir base db =
    execute " INSERT INTO expr VALUES ('g1', 'c2', 0.5),('g2', 'c3', 1.25)" db.
Proof.
  intros Hcols Hrows Hmatrix Hf1 Hs1 Hf2 Hs2.
  assert (Hp1 : parse_line ("1 2 0.5" +:+ String Py.NL "") = Ok (1, 2, v1)).
  { unfold parse_line.
    replace (Py.split _ _) with ["1"; "2"; "0.5"] by (vm_compute; reflexivity).
    by apply normalize_three. }
  assert (Hp2 : parse_line ("2 3 1.25" +:+ String Py.NL "") = Ok (2, 3, v2)).
  { unfold parse_line.
    replace (Py.split _ _) with ["2"; "3"; "1.25"] by (vm_compute; reflexivity).
    by apply normalize_three. }
  assert (Hstream : StreamMatrixData fs
    (dir // ((base +:+ ".aggregated_filtered_counts") +:+ "_matrix.mtx"))
    default_batch_size = Yield [(1, 2, v1); (2, 3, v2)] Stop).
  { unfold StreamMatrixData, open_lines, StreamMatrixData_lines. rewrite Hmatrix.
    replace (Py.readlines _) with
      ["1 2 0.5" +:+ String Py.NL ""; "2 3 1.25" +:+ String Py.NL ""]
      by (vm_compute; reflexivity).
    rewrite StreamMatrixData_loop_data, Hp1 by (vm_compute; reflexivity).
    cbv zeta. change (0 >=? _) with false. cbv iota.
    rewrite StreamMatrixData_loop_data, Hp2 by (vm_compute; reflexivity).
    cbv zeta. change (0 + 1 >=? _) with false. cbv iota. reflexivity. }
  assert (Hload : LoadMTX fs dir base db =
    InsertExprData [expr_tuple "g1" "c2" v1; expr_tuple "g2" "c3" v2] db).
  { unfold LoadMTX, ParseIDs, open_lines. rewrite Hcols, Hrows, Hstream.
    cbn [bind for_each]. unfold load_batch.
    replace (resolve_batch _ _ _ _) with
      (Ok [expr_tuple "g1" "c2" v1; expr_tuple "g2" "c3" v2])
      by (vm_compute; reflexivity).
    by destruct (InsertExprData _ db). }
  split; [done|]. split; [done|].
  rewrite Hload. unfold InsertExprData, InsertData, expr_tuple.
  rewrite Hs1, Hs2. reflexivity.
Qed.

End Scenarios.

(** * The scenarios, run on the reference instances *)

(** C2: every batch holds exactly N triples except possibly the last.
    The code marks the last row of a batch at line index
    [ndx + (batch_size - 1)] and yields when it reaches that row, before
    appending it: on three data lines with N = 2 the first batch, which is
    not the last, holds one triple, and with N = 1 the first batch is
    empty. *)
Theorem StreamMatrixData_first_batch_short :
  StreamMatrixData (FM := Decimal.model)
    {[ ["m.mtx"] := text_file three_rows ]} ["m.mtx"] 2
  = Yield [row 1 1 1 0] (Yield [row 2 2 2 0; row 3 3 3 0] Stop) ∧
  StreamMatrixData (FM := Decimal.model)
    {[ ["m.mtx"] := text_file three_rows ]} ["m.mtx"] 1
  = Yield [] (Yield [row 1 1 1 0] (Yield [row 2 2 2 0] (Yield [row 3 3 3 0] Stop))).
Proof. split; vm_compute; reflexivity. Qed.

(** Collected with [list(...)] instead of being consumed batch by batch,
    the same stream is two references to the one list, which holds the
    final batch. *)
Lemma StreamMatrixData_collected_aliases :
  StreamMatrixData_collected (FM := Decimal.model)
    (StreamMatrixData {[ ["m.mtx"] := text_file three_rows ]} ["m.mtx"] 2)
  = Ok [[row 2 2 2 0; row 3 3 3 0]; [row 2 2 2 0; row 3 3 3 0]].
Proof. vm_compute. reflexivity. Qed.

Lemma StreamMatrixData_covers_data_lines_witness :
  concat (gen_items (StreamMatrixData (FM := Decimal.model)
    {[ ["m.mtx"] := text_file ("%%MatrixMarket matrix coordinate real general" :: three_rows) ]}
    ["m.mtx"] 2))
  = [row 1 1 1 0; row 2 2 2 0; row 3 3 3 0].
Proof.
  apply (StreamMatrixData_covers_data_lines (FM := Decimal.model)
           {[ ["m.mtx"] := text_file ("%%MatrixMarket matrix coordinate real general" :: three_rows) ]}
           ["m.mtx"]
           (text_file ("%%MatrixMarket matrix coordinate real general" :: three_rows))
           2 [row 1 1 1 0; row 2 2 2 0; row 3 3 3 0]).
  - vm_compute. reflexivity.
  - lia.
  - apply parse_rows_complete. vm_compute. reflexivity.
Defined.

(** C3, as stated, fails: with every file of the dataset present and a
    matrix file holding no line, the insert of the one empty batch is
    issued and the database rejects it. *)
Lemma LoadMTX_empty_matrix_raises :
  LoadMTX (FM := Decimal.model) (EN := StatementLog.engine)
    (mtx_dataset ["data"] "ds" (text_file ["c1"]) (text_file ["g1"]) "")
    ["data"] "ds" []
  = Raised (DatabaseError "Parser Error: syntax error at end of input") [].
Proof. vm_compute. reflexivity. Qed.

Lemma LoadMTX_no_data_lines_witness :
  LoadMTX (FM := Decimal.model) (EN := StatementLog.engine)
    (mtx_dataset ["data"] "ds" (text_file ["c1"]) (text_file ["g1"])
       (text_file ["%%MatrixMarket matrix coordinate real general"; "  % no entry"]))
    ["data"] "ds" []
  = StatementLog.run " INSERT INTO expr VALUES " [].
Proof.
  pose proof (LoadMTX_no_data_lines (FM := Decimal.model) (EN := StatementLog.engine)
    (mtx_dataset ["data"] "ds" (text_file ["c1"]) (text_file ["g1"])
       (text_file ["%%MatrixMarket matrix coordinate real general"; "  % no entry"]))
    ["data"] "ds" (text_file ["c1"]) (text_file ["g1"])
    (text_file ["%%MatrixMarket matrix coordinate real general"; "  % no entry"]) [])
    as Hthm.
  destruct Hthm as (_ & Hload & Hstmt); [vm_compute; reflexivity..|].
  rewrite Hload. exact Hstmt.
Defined.

(** C4, as stated, fails: two comment lines between two data lines close
    the first batch early with N = 3, while the same file without them
    gives one batch of two. *)
Lemma comment_lines_move_batch_boundaries :
  data_lines (Py.readlines (text_file ["1 1 1.0"; "% a"; "% b"; "2 2 2.0"]))
  = Py.readlines (text_file ["1 1 1.0"; "2 2 2.0"]) ∧
  StreamMatrixData_lines (FM := Decimal.model)
    (Py.readlines (text_file ["1 1 1.0"; "% a"; "% b"; "2 2 2.0"])) 3
  = Yield [row 1 1 1 0] (Yield [row 2 2 2 0] Stop) ∧
  StreamMatrixData_lines (FM := Decimal.model)
    (Py.readlines (text_file ["1 1 1.0"; "2 2 2.0"])) 3
  = Yield [row 1 1 1 0; row 2 2 2 0] Stop.
Proof. repeat split; vm_compute; reflexivity. Qed.

Lemma comment_lines_contribute_no_triple_witness :
  StreamMatrixData_lines (FM := Decimal.model)
    (Py.readlines (text_file ["%%MatrixMarket"; "  % header"])
     ++ Py.readlines (text_file ["1 1 1.0"; "% a"; "2 2 2.0"])) 3
  = StreamMatrixData_lines (Py.readlines (text_file ["1 1 1.0"; "% a"; "2 2 2.0"])) 3 ∧
  concat (gen_items (StreamMatrixData_lines (FM := Decimal.model)
    (Py.readlines (text_file ["1 1 1.0"; "% a"; "2 2 2.0"])) 3))
  = [row 1 1 1 0; row 2 2 2 0].
Proof.
  pose proof (comment_lines_contribute_no_triple (FM := Decimal.model) 3
    (Py.readlines (text_file ["%%MatrixMarket"; "  % header"]))
    (Py.readlines (text_file ["1 1 1.0"; "% a"; "2 2 2.0"]))
    [row 1 1 1 0; row 2 2 2 0]) as Hthm.
  destruct Hthm as (Hlead & Hrows & _).
  - lia.
  - apply Forall_forall. intros line Hin. apply is_comment_first_nonspace.
    revert line Hin. apply Forall_forall, data_lines_none. vm_compute. reflexivity.
  - apply parse_rows_complete. vm_compute. reflexivity.
  - split; [exact Hlead|exact Hrows].
Defined.

Lemma LoadMTX_round_trip_witness :
  LoadMTX (FM := Decimal.model) (EN := StatementLog.engine)
    (mtx_dataset ["data"] "ds" (text_file ["c1"; "c2"; "c3"]) (text_file ["g1"; "g2"])
       (text_file ["1 2 0.5"; "2 3 1.25"]))
    ["data"] "ds" []
  = Returned [" INSERT INTO expr VALUES ('g1', 'c2', 0.5),('g2', 'c3', 1.25)"].
Proof.
  pose proof (LoadMTX_round_trip (FM := Decimal.model) (EN := StatementLog.engine)
    (mtx_dataset ["data"] "ds" (text_file ["c1"; "c2"; "c3"]) (text_file ["g1"; "g2"])
       (text_file ["1 2 0.5"; "2 3 1.25"]))
    ["data"] "ds" [] (Decimal.Dec false 5 1) (Decimal.Dec false 125 2)) as Hthm.
  destruct Hthm as (_ & _ & Hload); [vm_compute; reflexivity..|].
  rewrite Hload. vm_compute. reflexivity.
Defined.

Lemma ParseIDs_index_witness :
  ∃ index : gmap Z string,
    ParseIDs {[ ["genes.tsv"] := text_file [tsv ["g1"; "BRCA1"]; "  g2  "] ]} ["genes.tsv"]
      = Ok index ∧
    size index = 2%nat ∧ index !! 1 = Some "g1" ∧ index !! 2 = Some "g2".
Proof.
  destruct (ParseIDs_index
    {[ ["genes.tsv"] := text_file [tsv ["g1"; "BRCA1"]; "  g2  "] ]} ["genes.tsv"]
    (text_file [tsv ["g1"; "BRCA1"]; "  g2  "]))
    as (index & Hparse & Hsize & _ & Hfield); [vm_compute; reflexivity|].
  exists index. split; [exact Hparse|]. split; [exact Hsize|]. split.
  - exact (proj1 (Hfield 0%nat _ eq_refl)).
  - exact (proj2 (Hfield 1%nat _ eq_refl) eq_refl).
Defined.

(** C7, as stated, fails: a line of four fields is not rejected, its
    fourth field is ignored. *)
Lemma four_fields_accepted :
  length (Py.split Py.SPACE (Py.strip "1 2 0.5 9")) = 4%nat ∧
  parse_line (FM := Decimal.model) "1 2 0.5 9" = Ok (row 1 2 5 1) ∧
  StreamMatrixData (FM := Decimal.model)
    {[ ["m.mtx"] := text_file ["1 2 0.5 9"] ]} ["m.mtx"] default_batch_size
  = Yield [row 1 2 5 1] Stop.
Proof. repeat split; vm_compute; reflexivity. Qed.

Lemma malformed_line_aborts_stream_witness :
  parse_line (FM := Decimal.model) "1 2 0.5 9" = Ok (row 1 2 5 1) ∧
  (∃ e, is_ParseError e = true ∧
        gen_end (StreamMatrixData_lines (FM := Decimal.model)
                   (Py.readlines (text_file ["1 1 1.0"; "2 x 2.0"; "3 3 3.0"])) 2) = Some e) ∧
  ∃ e, is_ParseError e = true ∧
       gen_end (StreamMatrixData_lines (FM := Decimal.model)
                  (Py.readlines (text_file ["1 1 1.0"; "2 2"; "3 3 3.0"])) 2) = Some e.
Proof.
  split; [|split].
  - apply (proj1 (malformed_line_aborts_stream (FM := Decimal.model) 2
                    [] "1 2 0.5 9" [] [] ltac:(constructor) eq_refl)
             "1" "2" "0.5" ["9"] 1 2 (Decimal.Dec false 5 1)); reflexivity.
  - destruct (proj2 (malformed_line_aborts_stream (FM := Decimal.model) 2
                       (Py.readlines (text_file ["1 1 1.0"]))
                       (String.append "2 x 2.0" (String Py.NL ""))
                       (Py.readlines (text_file ["3 3 3.0"]))
                       [row 1 1 1 0]
                       ltac:(apply parse_rows_complete; vm_compute; reflexivity)
                       eq_refl) eq_refl)
      as (e & _ & Hkind & Hend & _).
    exists e. split; [exact Hkind|exact Hend].
  - destruct (proj2 (malformed_line_aborts_stream (FM := Decimal.model) 2
                       (Py.readlines (text_file ["1 1 1.0"]))
                       (String.append "2 2" (String Py.NL ""))
                       (Py.readlines (text_file ["3 3 3.0"]))
                       [row 1 1 1 0]
                       ltac:(apply parse_rows_complete; vm_compute; reflexivity)
                       eq_refl) eq_refl)
      as (e & _ & Hkind & Hend & _).
    exists e. split; [exact Hkind|exact Hend].
Defined.

Lemma LoadClusters_two_cells_witness :
  LoadClusters (EN := StatementLog.engine)
    {[ ["data"; "datasetX"; "clusters.tsv"] :=
         text_file [tsv ["1"; "10"; "cellA"]; tsv ["1"; "11"; "cellB"]] ]}
    ["data"; "datasetX"] default_file_name []
  = Returned [" INSERT INTO clusters VALUES (  1 ,10 ,'cellA' ,'datasetX'),(  1 ,11 ,'cellB' ,'datasetX')"].
Proof.
  destruct (LoadClusters_two_cells (EN := StatementLog.engine)
    {[ ["data"; "datasetX"; "clusters.tsv"] :=
         text_file [tsv ["1"; "10"; "cellA"]; tsv ["1"; "11"; "cellB"]] ]}
    ["data"; "datasetX"] default_file_name [])
    as (_ & _ & Hload); [vm_compute; reflexivity..|].
  rewrite Hload. vm_compute. reflexivity.
Defined.

Lemma LoadClusters_empty_file_witness :
  LoadClusters (EN := StatementLog.engine)
    {[ ["data"; "datasetX"; "clusters.tsv"] := "" ]}
    ["data"; "datasetX"] default_file_name []
  = Raised (DatabaseError "Parser Error: syntax error at end of input") [].
Proof.
  destruct (LoadClusters_empty_file (EN := StatementLog.engine)
    {[ ["data"; "datasetX"; "clusters.tsv"] := "" ]}
    ["data"; "datasetX"] default_file_name "" []
    "Parser Error: syntax error at end of input")
    as (_ & _ & _ & Hload); [vm_compute; reflexivity..|].
  exact Hload.
Defined.

Lemma LoadMTX_unknown_ordinal_witness :
  LoadMTX (FM := Decimal.model) (EN := StatementLog.engine)
    unknown_gene_dataset ["data"] "ds" []
  = Raised KeyError [" INSERT INTO expr VALUES ('g1', 'c2', 0.5)"].
Proof.
  destruct (LoadMTX_unknown_ordinal (FM := Decimal.model) (EN := StatementLog.engine)
    unknown_gene_dataset ["data"] "ds"
    (ParseIDs_loop 1 (Py.readlines (text_file ["c1"; "c2"])) ∅)
    (ParseIDs_loop 1 (Py.readlines (text_file ["g1"])) ∅)
    [[row 1 2 5 1]] [row 2 1 1 0] []
    2 1 (Decimal.Dec false 1 0) []
    [" INSERT INTO expr VALUES ('g1', 'c2', 0.5)"])
    as (_ & _ & _ & Hload).
  - vm_compute. reflexivity.
  - vm_compute. reflexivity.
  - vm_compute. reflexivity.
  - vm_compute. reflexivity.
  - apply list_elem_of_singleton. reflexivity.
  - left. vm_compute. reflexivity.
  - exact Hload.
Defined.

(** * Further properties of the streamer *)

Lemma batches_by_count_shape {A} (refill : nat) (ts : list A) : ∀ room cur,
  ∃ rest,
    batches_by_count refill room cur ts = (cur ++ take room ts) :: rest ∧
    concat rest = drop room ts ∧
    Forall (λ b, (1 ≤ length b ≤ S refill)%nat) rest ∧
    (∀ i b, rest !! i = Some b → (S i < length rest)%nat → length b = S refill).
Proof.
  induction ts as [|t ts IH]; intros room cur.
  { exists []. cbn [batches_by_count]. rewrite take_nil, drop_nil, app_nil_r.
    repeat split; [constructor|]. intros i b Hb. by rewrite lookup_nil in Hb. }
  destruct room as [|room]; cbn [batches_by_count].
  - destruct (IH refill [t]) as (rest & Heq & Hcat & Hall & Hmid).
    exists (([t] ++ take refill ts) :: rest).
    rewrite Heq, take_0, app_nil_r, drop_0. split; [done|]. split; [|split].
    + cbn [concat]. rewrite <- app_assoc, Hcat, take_drop. done.
    + constructor; [|done]. rewrite length_app, length_take. cbn. lia.
    + intros [|i] b Hb Hlt; cbn in Hb, Hlt.
      * injection Hb as <-. cbn [length]. rewrite length_take.
        destruct rest as [|b' rest']; [cbn in Hlt; lia|].
        apply Forall_cons in Hall as [Hb' _].
        assert (Hne : drop refill ts ≠ []).
        { rewrite <- Hcat. cbn. destruct b'; [cbn in Hb'; lia|done]. }
        destruct (decide (refill < length ts)%nat); [lia|].
        by rewrite drop_ge in Hne by lia.
      * apply (Hmid i b Hb). lia.
  - destruct (IH room (cur ++ [t])) as (rest & Heq & Hcat & Hall & Hmid).
    exists rest. rewrite Heq, <- app_assoc. done.
Qed.

Section BatchCounting.
Context {FM : FloatModel}.

(** On data lines the bookkeeping on line indices amounts to counting
    rows. *)
Lemma stream_loop_counts N lines ts :
  1 ≤ N →
  Forall (λ line, is_comment line = false) lines →
  Forall2 (λ line t, parse_line line = Ok t) lines ts →
  ∀ ndx stop room batch,
    0 ≤ ndx →
    (stop = 0 ∧ Z.of_nat room = N - 1) ∨ (stop ≠ 0 ∧ stop = ndx + Z.of_nat room) →
    StreamMatrixData_loop N ndx lines stop batch =
    gen_of_list (batches_by_count (Z.to_nat (N - 1)) room batch ts).
Proof.
  intros HN Hdata Hrows. induction Hrows as [|line t lines ts Hp _ IH];
    intros ndx stop room batch Hn Hinv; [done|].
  apply Forall_cons in Hdata as [Hc Hdata].
  rewrite StreamMatrixData_loop_data, Hp by done. cbv zeta.
  rewrite Z.geb_leb.
  set (stop1 := if stop =? 0 then ndx + (N - 1) else stop).
  destruct room as [|room]; cbn [batches_by_count gen_of_list].
  - assert (Hyield : (stop1 <=? ndx) = true).
    { apply Z.leb_le. unfold stop1. destruct (Z.eqb_spec stop 0); lia. }
    rewrite Hyield. f_equal. apply IH; [done|lia|left; lia].
  - assert (Hgo : (stop1 <=? ndx) = false).
    { apply Z.leb_gt. unfold stop1. destruct (Z.eqb_spec stop 0); lia. }
    rewrite Hgo. apply IH; [done|lia|right].
    unfold stop1. destruct (Z.eqb_spec stop 0); lia.
Qed.

End BatchCounting.

Section StreamerShape.
Context {FM : FloatModel}.

(** For a matrix file whose comment lines all come before its data lines
    and whose data lines all parse, with N >= 1: the first batch holds the
    first N - 1 triples (all of them when there are fewer), the batches
    after it hold the remaining triples in order, each of them exactly N
    except the last, which holds between 1 and N. *)
Theorem StreamMatrixData_batch_sizes N header rows ts :
  1 ≤ N →
  Forall (λ line, is_comment line = true) header →
  Forall (λ line, is_comment line = false) rows →
  Forall2 (λ line t, parse_line line = Ok t) rows ts →
  ∃ rest,
    StreamMatrixData_lines (header ++ rows) N =
      gen_of_list (take (Z.to_nat (N - 1)) ts :: rest) ∧
    concat rest = drop (Z.to_nat (N - 1)) ts ∧
    Forall (λ b, 1 ≤ Z.of_nat (length b) ≤ N) rest ∧
    (∀ i b, rest !! i = Some b → (S i < length rest)%nat → Z.of_nat (length b) = N).
Proof.
  intros HN Hheader Hdata Hrows.
  destruct (batches_by_count_shape (Z.to_nat (N - 1)) ts (Z.to_nat (N - 1)) [])
    as (rest & Heq & Hcat & Hall & Hmid).
  exists rest. rewrite stream_leading_comments by done.
  unfold StreamMatrixData_lines.
  rewrite (stream_loop_counts N rows ts HN Hdata Hrows 0 0 (Z.to_nat (N - 1)) [])
    by (done || left; lia).
  rewrite Heq. split; [done|]. split; [done|]. split.
  - eapply Forall_impl; [exact Hall|]. cbn. intros b Hb. lia.
  - intros i b Hb Hlt. rewrite (Hmid i b Hb Hlt). lia.
Qed.

Lemma stream_loop_unit N lines : N ≤ 1 → ∀ ndx batch,
  StreamMatrixData_loop N ndx lines 0 batch = StreamMatrixData_loop 1 ndx lines 0 batch.
Proof.
  intros HN. induction lines as [|line rest IH]; intros ndx batch; [done|].
  destruct (is_comment line) eqn:Hc.
  - rewrite !StreamMatrixData_loop_comment by done. apply IH.
  - rewrite !StreamMatrixData_loop_data by done. cbv zeta. rewrite !Z.geb_leb.
    change (0 =? 0) with true. cbv iota.
    destruct (Z.leb_spec (ndx + (N - 1)) ndx), (Z.leb_spec (ndx + (1 - 1)) ndx);
      try lia.
    destruct (parse_line line); [|done]. f_equal. apply IH.
Qed.

(** The batch size is not validated: a batch size of zero or less gives
    the stream of batch size 1. *)
Theorem StreamMatrixData_batch_size_below_one fs path N :
  N ≤ 1 → StreamMatrixData fs path N = StreamMatrixData fs path 1.
Proof.
  intros HN. unfold StreamMatrixData, StreamMatrixData_lines.
  destruct (open_lines fs path); [|done]. by apply stream_loop_unit.
Qed.

Lemma stream_loop_singletons lines : ∀ ts ndx batch,
  Forall2 (λ line t, parse_line line = Ok t) (data_lines lines) ts →
  StreamMatrixData_loop 1 ndx lines 0 batch =
  gen_of_list (batch :: ((λ t, [t]) <$> ts)).
Proof.
  induction lines as [|line rest IH]; intros ts ndx batch Hrows.
  { cbn in Hrows. by apply Forall2_nil_inv_l in Hrows as ->. }
  destruct (is_comment line) eqn:Hc.
  - rewrite StreamMatrixData_loop_comment by done.
    rewrite data_lines_comment in Hrows by done. by apply IH.
  - rewrite StreamMatrixData_loop_data by done.
    rewrite data_lines_data in Hrows by done.
    apply Forall2_cons_inv_l in Hrows as (t & ts' & Hp & Hrows & ->).
    cbv zeta. rewrite Hp, Z.geb_leb. change (0 =? 0) with true. cbv iota.
    destruct (Z.leb_spec (ndx + (1 - 1)) ndx); [|lia].
    cbn [fmap list_fmap gen_of_list]. f_equal. by apply IH.
Qed.

(** With a batch size of 1, wherever the comment lines are, the stream is
    an empty batch followed by one batch for each triple. *)
Theorem StreamMatrixData_batch_size_one lines ts :
  Forall2 (λ line t, parse_line line = Ok t) (data_lines lines) ts →
  StreamMatrixData_lines lines 1 = gen_of_list ([] :: ((λ t, [t]) <$> ts)).
Proof. apply stream_loop_singletons. Qed.

(** Comment lines after the last data line change nothing. *)
Theorem StreamMatrixData_trailing_comments N lines trailer :
  Forall (λ line, is_comment line = true) trailer →
  StreamMatrixData_lines (lines ++ trailer) N = StreamMatrixData_lines lines N.
Proof.
  intros Htrail. unfold StreamMatrixData_lines.
  generalize 0 at 2 4 as stop. generalize 0 as ndx. generalize (@nil Triple) as batch.
  induction lines as [|line rest IH]; intros batch ndx stop.
  { cbn [app]. rewrite stream_loop_no_data by (by apply data_lines_comments). done. }
  cbn [app]. destruct (is_comment line) eqn:Hc.
  - rewrite !StreamMatrixData_loop_comment by done. apply IH.
  - rewrite !StreamMatrixData_loop_data by done. cbv zeta.
    destruct (ndx >=? _); destruct (parse_line line); try done; by rewrite IH.
Qed.

(** A blank line is not a comment: it is read as a row and raises
    ValueError, which ends the stream. *)
Theorem blank_line_aborts_stream N pre line post ts :
  Py.strip line = EmptyString →
  Forall2 (λ l t, parse_line l = Ok t) (data_lines pre) ts →
  is_comment line = false ∧
  parse_line line = Raise ValueError ∧
  gen_end (StreamMatrixData_lines (pre ++ line :: post) N) = Some ValueError ∧
  concat (gen_items (StreamMatrixData_lines (pre ++ line :: post) N)) `prefix_of` ts.
Proof.
  intros Hblank Hpre.
  assert (Hc : is_comment line = false) by (unfold is_comment; by rewrite Hblank).
  assert (Hp : parse_line line = Raise ValueError).
  { unfold parse_line. rewrite Hblank. reflexivity. }
  assert (Hrows : parse_rows (data_lines (pre ++ line :: post)) = (ts, Some ValueError)).
  { rewrite data_lines_app, data_lines_data by done. by apply parse_rows_stuck. }
  split; [done|]. split; [done|]. unfold StreamMatrixData_lines. split.
  - by rewrite stream_loop_end, Hrows.
  - pose proof (stream_loop_prefix N (pre ++ line :: post) 0 0 []) as Hpre'.
    by rewrite Hrows in Hpre'.
Qed.

End StreamerShape.

(** * Further properties of the loaders *)

Lemma for_each_aborts {A S} (g : Gen A) (body : A → S → Outcome S) e s s' :
  gen_end g = Some e →
  for_each (gen_of_list (gen_items g)) body s = Returned s' →
  for_each g body s = Raised e s'.
Proof.
  revert s. induction g as [| |a rest IH]; intros s; cbn; [done| |].
  - by intros [= ->] [= ->].
  - intros Hend. destruct (body a s); [by apply IH|done].
Qed.

Lemma LoadClusters_loop_step dir_path line rest acc :
  LoadClusters_loop dir_path (line :: rest) acc =
  match cluster_record (path_name dir_path) line with
  | Some rec => LoadClusters_loop dir_path rest (acc ++ [rec])
  | None => Raise ValueError
  end.
Proof.
  cbn [LoadClusters_loop]. unfold cluster_record.
  destruct (Py.split Py.TAB (Py.strip line)) as [|m [|d [|c [|x l]]]]; try done.
  destruct (Py.int (Py.strip m)) as [mv|e] eqn:Hm; cbn [bind].
  - destruct (Py.int (Py.strip d)) as [dv|e] eqn:Hd; cbn [bind]; [done|].
    by apply int_raises in Hd as ->.
  - by apply int_raises in Hm as ->.
Qed.

Lemma LoadClusters_loop_records dir_path lines : ∀ acc recs,
  Forall2 (λ line rec, cluster_record (path_name dir_path) line = Some rec) lines recs →
  LoadClusters_loop dir_path lines acc = Ok (acc ++ recs).
Proof.
  induction lines as [|line rest IH]; intros acc recs Hall.
  { apply Forall2_nil_inv_l in Hall as ->. by rewrite app_nil_r. }
  apply Forall2_cons_inv_l in Hall as (rec & recs' & Hrec & Hall & ->).
  rewrite LoadClusters_loop_step, Hrec, (IH _ recs') by done.
  by rewrite <- app_assoc.
Qed.

Lemma LoadClusters_loop_malformed dir_path lines : ∀ acc,
  Exists (λ line, cluster_record (path_name dir_path) line = None) lines →
  LoadClusters_loop dir_path lines acc = Raise ValueError.
Proof.
  induction lines as [|line rest IH]; intros acc Hbad.
  { by apply Exists_nil in Hbad. }
  rewrite LoadClusters_loop_step.
  destruct (cluster_record (path_name dir_path) line) as [rec|] eqn:Hrec; [|done].
  apply Exists_cons in Hbad as [Hbad|Hbad]; [congruence|by apply IH].
Qed.

Section LoaderFacts.
Context {FM : FloatModel} {EN : Engine}.

Lemma resolve_batch_step (row_meta col_meta : gmap Z string) t rest acc :
  resolve_batch row_meta col_meta (t :: rest) acc =
  match resolve_triple row_meta col_meta t with
  | Some rec => resolve_batch row_meta col_meta rest (acc ++ [rec])
  | None => Raise KeyError
  end.
Proof.
  cbn [resolve_batch]. unfold resolve_triple, dict_get.
  destruct (row_meta !! t.1.1); [|done]. by destruct (col_meta !! t.1.2).
Qed.

Lemma resolve_batch_records (row_meta col_meta : gmap Z string) batch : ∀ acc recs,
  Forall2 (λ t rec, resolve_triple row_meta col_meta t = Some rec) batch recs →
  resolve_batch row_meta col_meta batch acc = Ok (acc ++ recs).
Proof.
  induction batch as [|t rest IH]; intros acc recs Hall.
  { apply Forall2_nil_inv_l in Hall as ->. by rewrite app_nil_r. }
  apply Forall2_cons_inv_l in Hall as (rec & recs' & Hrec & Hall & ->).
  rewrite resolve_batch_step, Hrec, (IH _ recs') by done.
  by rewrite <- app_assoc.
Qed.

Lemma resolve_batch_result (row_meta col_meta : gmap Z string) batch : ∀ acc,
  (∃ recs, Forall2 (λ t rec, resolve_triple row_meta col_meta t = Some rec) batch recs ∧
           resolve_batch row_meta col_meta batch acc = Ok (acc ++ recs)) ∨
  (Exists (λ t, resolve_triple row_meta col_meta t = None) batch ∧
   resolve_batch row_meta col_meta batch acc = Raise KeyError).
Proof.
  induction batch as [|t rest IH]; intros acc.
  { left. exists []. split; [constructor|]. by rewrite app_nil_r. }
  rewrite resolve_batch_step.
  destruct (resolve_triple row_meta col_meta t) as [rec|] eqn:Hrec.
  - destruct (IH (acc ++ [rec])) as [(recs & Hall & ->)|[Hbad ->]].
    + left. exists (rec :: recs). split; [by constructor|]. by rewrite <- app_assoc.
    + right. split; [by apply Exists_cons_tl|done].
  - right. split; [by apply Exists_cons_hd|done].
Qed.

(** Resolving a batch succeeds exactly when both ordinals of each of its
    triples are in the indexes, and then gives one record for each triple,
    in the order of the batch; otherwise it raises KeyError. *)
Theorem resolve_batch_in_order (row_meta col_meta : gmap Z string) batch :
  (∀ recs, resolve_batch row_meta col_meta batch [] = Ok recs ↔
           Forall2 (λ t rec, resolve_triple row_meta col_meta t = Some rec) batch recs) ∧
  (∀ e, resolve_batch row_meta col_meta batch [] = Raise e ↔
        e = KeyError ∧ Exists (λ t, resolve_triple row_meta col_meta t = None) batch).
Proof.
  destruct (resolve_batch_result row_meta col_meta batch [])
    as [(recs0 & Hall & Hres)|[Hbad Hres]]; cbn [app] in Hres; rewrite Hres; split.
  - intros recs. split; [by intros [= <-]|].
    intros Hall'. f_equal. revert Hall Hall'. clear.
    revert recs0 recs. induction batch as [|t rest IH]; intros r0 r1 H0 H1.
    + apply Forall2_nil_inv_l in H0 as ->. by apply Forall2_nil_inv_l in H1 as ->.
    + apply Forall2_cons_inv_l in H0 as (a & r0' & Ha & H0 & ->).
      apply Forall2_cons_inv_l in H1 as (b & r1' & Hb & H1 & ->).
      f_equal; [congruence|by apply IH].
  - intros e. split; [done|]. intros [_ Hbad]. exfalso.
    clear Hres. induction Hall as [|t rec rest recs Ht _ IH]; [by apply Exists_nil in Hbad|].
    apply Exists_cons in Hbad as [Hbad|Hbad]; [congruence|by apply IH].
  - intros recs. split; [done|]. intros Hall. exfalso.
    clear Hres. induction Hall as [|t rec rest recs' Ht _ IH]; [by apply Exists_nil in Hbad|].
    apply Exists_cons in Hbad as [Hbad|Hbad]; [congruence|by apply IH].
  - intros e. split; [by intros [= <-]|]. by intros [-> _].
Qed.

End LoaderFacts.

Lemma Forall2_concat_inv {A B} (R : A → B → Prop) (ls : list (list A)) : ∀ out,
  Forall2 R (concat ls) out →
  ∃ outs, concat outs = out ∧ Forall2 (Forall2 R) ls outs.
Proof.
  induction ls as [|l ls IH]; intros out Hall.
  { cbn in Hall. apply Forall2_nil_inv_l in Hall as ->. by exists []. }
  cbn [concat] in Hall.
  apply Forall2_app_inv_l in Hall as (o1 & o2 & H1 & H2 & ->).
  destruct (IH o2 H2) as (outs & <- & Hall).
  exists (o1 :: outs). split; [done|by constructor].
Qed.

Section LoaderProperties.
Context {FM : FloatModel} {EN : Engine}.

Lemma LoadMTX_files fs dir base cols rows matrix db :
  fs !! (dir // ((base +:+ ".aggregated_filtered_counts") +:+ ".mtx_cols"))
    = Some cols →
  fs !! (dir // ((base +:+ ".aggregated_filtered_counts") +:+ ".mtx_rows"))
    = Some rows →
  fs !! (dir // ((base +:+ ".aggregated_filtered_counts") +:+ "_matrix.mtx"))
    = Some matrix →
  StreamMatrixData fs
    (dir // ((base +:+ ".aggregated_filtered_counts") +:+ "_matrix.mtx"))
    default_batch_size
  = StreamMatrixData_lines (Py.readlines matrix) default_batch_size ∧
  LoadMTX fs dir base db =
  for_each (StreamMatrixData_lines (Py.readlines matrix) default_batch_size)
    (load_batch (index_of rows) (index_of cols)) db.
Proof.
  intros Hcols Hrows Hmatrix.
  unfold LoadMTX, ParseIDs, StreamMatrixData, open_lines.
  by rewrite Hcols, Hrows, Hmatrix.
Qed.

Lemma load_batch_records (row_meta col_meta : gmap Z string) batch recs db :
  Forall2 (λ t rec, resolve_triple row_meta col_meta t = Some rec) batch recs →
  load_batch row_meta col_meta batch db = InsertExprData recs db.
Proof.
  intros Hall. unfold load_batch. by rewrite (resolve_batch_records _ _ _ [] recs).
Qed.

Lemma for_each_load_batches (row_meta col_meta : gmap Z string) batches : ∀ rbatches db,
  Forall2 (Forall2 (λ t rec, resolve_triple row_meta col_meta t = Some rec))
    batches rbatches →
  for_each (gen_of_list batches) (load_batch row_meta col_meta) db =
  for_each (gen_of_list rbatches) InsertExprData db.
Proof.
  induction batches as [|b batches IH]; intros rbatches db Hall.
  { by apply Forall2_nil_inv_l in Hall as ->. }
  apply Forall2_cons_inv_l in Hall as (rb & rbs & Hb & Hall & ->).
  cbn [gen_of_list for_each]. rewrite (load_batch_records _ _ _ _ _ Hb).
  destruct (InsertExprData rb db); [by apply IH|done].
Qed.


(** For a dataset whose matrix lines all parse and whose ordinals are all
    in the indexes, LoadMTX is the sequence of bulk inserts of the emitted
    batches, one statement for each batch in emission order, and the
    records of these inserts put end to end are the records of the data
    lines in file order. *)
Theorem LoadMTX_inserts_every_batch fs dir base cols rows matrix ts recs db :
  fs !! (dir // ((base +:+ ".aggregated_filtered_counts") +:+ ".mtx_cols"))
    = Some cols →
  fs !! (dir // ((base +:+ ".aggregated_filtered_counts") +:+ ".mtx_rows"))
    = Some rows →
  fs !! (dir // ((base +:+ ".aggregated_filtered_counts") +:+ "_matrix.mtx"))
    = Some matrix →
  Forall2 (λ line t, parse_line line = Ok t) (data_lines (Py.readlines matrix)) ts →
  Forall2 (λ t rec, resolve_triple (index_of rows) (index_of cols) t = Some rec) ts recs →
  ∃ batches : list (list string),
    concat batches = recs ∧
    Forall2 (Forall2 (λ t rec, resolve_triple (index_of rows) (index_of cols) t = Some rec))
      (gen_items (StreamMatrixData fs
         (dir // ((base +:+ ".aggregated_filtered_counts") +:+ "_matrix.mtx"))
         default_batch_size))
      batches ∧
    LoadMTX fs dir base db = for_each (gen_of_list batches) InsertExprData db.
Proof.
  intros Hcols Hrows Hmatrix Hparse Hresolve.
  destruct (LoadMTX_files fs dir base cols rows matrix db Hcols Hrows Hmatrix)
    as [-> ->].
  pose proof (parse_rows_all _ _ Hparse) as Hall.
  unfold StreamMatrixData_lines.
  assert (Hend : gen_end (StreamMatrixData_loop default_batch_size 0
                            (Py.readlines matrix) 0 []) = None).
  { by rewrite stream_loop_end, Hall. }
  assert (Hcat : concat (gen_items (StreamMatrixData_loop default_batch_size 0
                            (Py.readlines matrix) 0 [])) = ts).
  { rewrite stream_loop_rows by (by rewrite Hall). by rewrite Hall. }
  rewrite <- Hcat in Hresolve.
  destruct (Forall2_concat_inv _ _ _ Hresolve) as (batches & Hrecs & Hbatches).
  exists batches. split; [done|]. split; [done|].
  rewrite for_each_returns by done. by apply for_each_load_batches.
Qed.

(** A dataset of at most 1023 entries whose comment lines all come before
    them is loaded by a single bulk insert of all its records, in file
    order. *)
Theorem LoadMTX_single_insert fs dir base cols rows matrix header lines ts recs db :
  fs !! (dir // ((base +:+ ".aggregated_filtered_counts") +:+ ".mtx_cols"))
    = Some cols →
  fs !! (dir // ((base +:+ ".aggregated_filtered_counts") +:+ ".mtx_rows"))
    = Some rows →
  fs !! (dir // ((base +:+ ".aggregated_filtered_counts") +:+ "_matrix.mtx"))
    = Some matrix →
  Py.readlines matrix = header ++ lines →
  Forall (λ line, is_comment line = true) header →
  Forall (λ line, is_comment line = false) lines →
  Forall2 (λ line t, parse_line line = Ok t) lines ts →
  (length ts ≤ 1023)%nat →
  Forall2 (λ t rec, resolve_triple (index_of rows) (index_of cols) t = Some rec) ts recs →
  StreamMatrixData fs
    (dir // ((base +:+ ".aggregated_filtered_counts") +:+ "_matrix.mtx"))
    default_batch_size = Yield ts Stop ∧
  LoadMTX fs dir base db = InsertExprData recs db.
Proof.
  intros Hcols Hrows Hmatrix Hlines Hheader Hdata Hparse Hlen Hresolve.
  destruct (LoadMTX_files fs dir base cols rows matrix db Hcols Hrows Hmatrix)
    as [-> ->].
  assert (Hstream : StreamMatrixData_lines (Py.readlines matrix) default_batch_size
                    = Yield ts Stop).
  { rewrite Hlines, stream_leading_comments by done.
    unfold StreamMatrixData_lines.
    rewrite (stream_loop_counts default_batch_size lines ts ltac:(done) Hdata Hparse
               0 0 1023 []) by (done || by left).
    destruct (batches_by_count_shape (Z.to_nat (default_batch_size - 1)) ts 1023 [])
      as (rest & -> & Hcat & Hall & _).
    rewrite drop_ge in Hcat by done. rewrite take_ge by done.
    destruct rest as [|b rest]; [done|].
    apply Forall_cons in Hall as [Hb _]. destruct b; [cbn in Hb; lia|done]. }
  rewrite Hstream. split; [done|]. cbn [for_each].
  rewrite (load_batch_records _ _ _ _ _ Hresolve).
  by destruct (InsertExprData recs db).
Qed.

(** LoadMTX is not atomic. When the stream aborts on a malformed line,
    the load raises that ParseError after the batches emitted before the
    line have been inserted; the rows accumulated since the last batch are
    not inserted. *)
Theorem LoadMTX_malformed_line fs dir base cols rows matrix pre line post ts db db' :
  fs !! (dir // ((base +:+ ".aggregated_filtered_counts") +:+ ".mtx_cols"))
    = Some cols →
  fs !! (dir // ((base +:+ ".aggregated_filtered_counts") +:+ ".mtx_rows"))
    = Some rows →
  fs !! (dir // ((base +:+ ".aggregated_filtered_counts") +:+ "_matrix.mtx"))
    = Some matrix →
  Py.readlines matrix = pre ++ line :: post →
  Forall2 (λ l t, parse_line l = Ok t) (data_lines pre) ts →
  is_comment line = false →
  numeric_row (Py.split Py.SPACE (Py.strip line)) = false →
  for_each
    (gen_of_list (gen_items (StreamMatrixData fs
       (dir // ((base +:+ ".aggregated_filtered_counts") +:+ "_matrix.mtx"))
       default_batch_size)))
    (load_batch (index_of rows) (index_of cols)) db = Returned db' →
  ∃ e, is_ParseError e = true ∧ LoadMTX fs dir base db = Raised e db'.
Proof.
  intros Hcols Hrows Hmatrix Hlines Hpre Hc Hbad.
  destruct (LoadMTX_files fs dir base cols rows matrix db Hcols Hrows Hmatrix)
    as [-> ->].
  intros Hloaded.
  destruct (normalize_malformed _ Hbad) as (e & He & Hkind).
  exists e. split; [done|]. apply for_each_aborts; [|done].
  unfold StreamMatrixData_lines. rewrite stream_loop_end, Hlines.
  rewrite data_lines_app, data_lines_data by done.
  by rewrite (parse_rows_stuck _ ts _ _ e).
Qed.

(** When the bulk insert of a batch raises, the load stops with that
    error: the batches before it stay inserted and the batches after it
    are never resolved or inserted. *)
Theorem LoadMTX_insert_failure fs dir base cols rows matrix pre b post recs e db db' db'' :
  fs !! (dir // ((base +:+ ".aggregated_filtered_counts") +:+ ".mtx_cols"))
    = Some cols →
  fs !! (dir // ((base +:+ ".aggregated_filtered_counts") +:+ ".mtx_rows"))
    = Some rows →
  fs !! (dir // ((base +:+ ".aggregated_filtered_counts") +:+ "_matrix.mtx"))
    = Some matrix →
  gen_items (StreamMatrixData fs
    (dir // ((base +:+ ".aggregated_filtered_counts") +:+ "_matrix.mtx"))
    default_batch_size) = pre ++ b :: post →
  for_each (gen_of_list pre) (load_batch (index_of rows) (index_of cols)) db
    = Returned db' →
  Forall2 (λ t rec, resolve_triple (index_of rows) (index_of cols) t = Some rec) b recs →
  InsertExprData recs db' = Raised e db'' →
  LoadMTX fs dir base db = Raised e db''.
Proof.
  intros Hcols Hrows Hmatrix.
  destruct (LoadMTX_files fs dir base cols rows matrix db Hcols Hrows Hmatrix)
    as [-> ->].
  intros Hitems Hpre Hb Hfail.
  eapply for_each_raises; [done..|]. by rewrite (load_batch_records _ _ _ _ _ Hb).
Qed.

(** For a cluster file whose lines all have three tab-separated fields
    with integer ids, LoadClusters is one bulk insert of one record for
    each line, in file order, each tagged with the final component of the
    directory path. *)
Theorem LoadClusters_one_record_per_line fs dir_path dataset file_name content recs db :
  path_name dir_path = dataset →
  fs !! (dir_path // file_name) = Some content →
  Forall2 (λ line rec, cluster_record dataset line = Some rec)
    (Py.readlines content) recs →
  LoadClusters fs dir_path file_name db = InsertClusterData recs db.
Proof.
  intros Hname Hfile Hall. unfold LoadClusters, open_lines. rewrite Hfile.
  rewrite (LoadClusters_loop_records _ _ [] recs); [done|].
  by rewrite Hname.
Qed.

(** A cluster line that does not have exactly three tab-separated fields,
    or whose metacluster or cluster id is not an integer, makes
    LoadClusters raise ValueError without running any statement, wherever
    the line is in the file. *)
Theorem LoadClusters_malformed_line fs dir_path file_name content db :
  fs !! (dir_path // file_name) = Some content →
  Exists (λ line, cluster_record (path_name dir_path) line = None)
    (Py.readlines content) →
  LoadClusters fs dir_path file_name db = Raised ValueError db.
Proof.
  intros Hfile Hbad. unfold LoadClusters, open_lines. rewrite Hfile.
  by rewrite LoadClusters_loop_malformed.
Qed.

End LoaderProperties.

Lemma index_of_lookup_None content i :
  index_of content !! i = None ↔ ¬ (1 ≤ i ≤ Z.of_nat (length (Py.readlines content))).
Proof.
  unfold index_of. rewrite ParseIDs_loop_lookup. case_decide as Hi.
  - destruct (lookup_lt_is_Some_2 (Py.readlines content) (Z.to_nat (i - 1)))
      as [line Hline]; [lia|].
    rewrite Hline. cbn. split; [done|lia].
  - rewrite lookup_empty. split; [lia|done].
Qed.

Section OrdinalBounds.
Context {FM : FloatModel} {EN : Engine}.

(** Against the indexes of a row file and a column file, a batch fails to
    resolve, with KeyError, exactly when one of its triples has a row
    ordinal outside 1..(number of row lines) or a column ordinal outside
    1..(number of column lines); zero and negative ordinals are outside. *)
Theorem resolve_batch_ordinal_bounds rows cols batch :
  resolve_batch (index_of rows) (index_of cols) batch [] = Raise KeyError ↔
  Exists (λ t : Triple,
            ¬ (1 ≤ t.1.1 ≤ Z.of_nat (length (Py.readlines rows)) ∧
               1 ≤ t.1.2 ≤ Z.of_nat (length (Py.readlines cols)))) batch.
Proof.
  assert (Hone : ∀ t : Triple,
    resolve_triple (index_of rows) (index_of cols) t = None ↔
    ¬ (1 ≤ t.1.1 ≤ Z.of_nat (length (Py.readlines rows)) ∧
       1 ≤ t.1.2 ≤ Z.of_nat (length (Py.readlines cols)))).
  { intros t. unfold resolve_triple.
    pose proof (index_of_lookup_None rows t.1.1) as Hr.
    pose proof (index_of_lookup_None cols t.1.2) as Hc.
    destruct (index_of rows !! t.1.1), (index_of cols !! t.1.2);
      split; try done; intros Hout.
    - exfalso. apply Hout. split.
      + destruct (decide (1 ≤ t.1.1 ≤ Z.of_nat (length (Py.readlines rows))));
          [done|]. by apply Hr in n.
      + destruct (decide (1 ≤ t.1.2 ≤ Z.of_nat (length (Py.readlines cols))));
          [done|]. by apply Hc in n.
    - intros [_ Hin]. by apply Hc.
    - intros [Hin _]. by apply Hr.
    - intros [Hin _]. by apply Hr. }
  destruct (resolve_batch_result (index_of rows) (index_of cols) batch [])
    as [(recs & Hall & Hres)|[Hbad Hres]]; rewrite Hres.
  - split; [done|]. intros Hout. exfalso. clear Hres.
    induction Hall as [|t rec rest recs Ht _ IH]; [by apply Exists_nil in Hout|].
    apply Exists_cons in Hout as [Hout|Hout]; [|by apply IH].
    apply Hone in Hout. congruence.
  - split; [|done]. intros _. eapply Exists_impl; [exact Hbad|].
    intros t. apply Hone.
Qed.

(** Only the stripped form of a line is ever used: two files whose lines
    agree once whitespace is trimmed at both ends (indentation, trailing
    blanks, a missing final newline) give the same index, the same stream
    of batches and the same cluster records. *)
Theorem lines_used_stripped lines1 lines2 :
  Forall2 (λ a b, Py.strip a = Py.strip b) lines1 lines2 →
  (∀ ndx (m : gmap Z string), ParseIDs_loop ndx lines1 m = ParseIDs_loop ndx lines2 m) ∧
  (∀ N, StreamMatrixData_lines lines1 N = StreamMatrixData_lines lines2 N) ∧
  (∀ dir_path, LoadClusters_loop dir_path lines1 [] = LoadClusters_loop dir_path lines2 []).
Proof.
  intros Hsame. split; [|split].
  - induction Hsame as [|a b l1 l2 Hab _ IH]; intros ndx m; [done|].
    cbn [ParseIDs_loop]. by rewrite Hab, IH.
  - intros N. unfold StreamMatrixData_lines.
    generalize 0 at 2 4 as stop. generalize 0 as ndx. generalize (@nil Triple) as batch.
    induction Hsame as [|a b l1 l2 Hab _ IH]; intros batch ndx stop; [done|].
    cbn [StreamMatrixData_loop]. rewrite Hab.
    destruct (Py.startswith "%" (Py.strip b)); [apply IH|]. cbv zeta.
    destruct (ndx >=? _); destruct (normalize _); try done; by rewrite IH.
  - intros dir_path. generalize (@nil string) as acc.
    induction Hsame as [|a b l1 l2 Hab _ IH]; intros acc; [done|].
    rewrite !LoadClusters_loop_step. unfold cluster_record. rewrite Hab.
    destruct (match Py.split Py.TAB (Py.strip b) with [] => _ | _ :: _ => _ end);
      [apply IH|done].
Qed.

End OrdinalBounds.

(** * The further properties, run on the reference instances *)

Lemma not_comment_lines lines :
  forallb (λ line, negb (is_comment line)) lines = true →
  Forall (λ line, is_comment line = false) lines.
Proof.
  induction lines as [|l lines IH]; cbn [forallb]; [constructor|].
  intros [Hl Hrest]%andb_prop. constructor; [|by apply IH].
  by destruct (is_comment l).
Qed.

Lemma StreamMatrixData_batches_bounded_witness :
  Forall (λ b : list (Z * Z * Decimal.t), Z.of_nat (length b) ≤ 2)
    (gen_items (StreamMatrixData_lines (FM := Decimal.model)
       (Py.readlines (text_file ("1 1 1.0" :: "% a" :: three_rows))) 2)).
Proof.
  apply (StreamMatrixData_batches_bounded (FM := Decimal.model) 2). lia.
Defined.

Lemma StreamMatrixData_batch_sizes_witness :
  ∃ rest,
    StreamMatrixData_lines (FM := Decimal.model)
      (Py.readlines (text_file ["%%MatrixMarket"; " % header"])
       ++ Py.readlines (text_file three_rows)) 2
    = gen_of_list ([row 1 1 1 0] :: rest) ∧
    concat rest = [row 2 2 2 0; row 3 3 3 0].
Proof.
  destruct (StreamMatrixData_batch_sizes (FM := Decimal.model) 2
    (Py.readlines (text_file ["%%MatrixMarket"; " % header"]))
    (Py.readlines (text_file three_rows))
    [row 1 1 1 0; row 2 2 2 0; row 3 3 3 0]) as (rest & Hstream & Hcat & _).
  - lia.
  - apply data_lines_none. vm_compute. reflexivity.
  - apply not_comment_lines. vm_compute. reflexivity.
  - apply parse_rows_complete. vm_compute. reflexivity.
  - exists rest. split; [exact Hstream|exact Hcat].
Defined.

Lemma StreamMatrixData_batch_size_below_one_witness :
  StreamMatrixData (FM := Decimal.model)
    {[ ["m.mtx"] := text_file three_rows ]} ["m.mtx"] (-3)
  = StreamMatrixData {[ ["m.mtx"] := text_file three_rows ]} ["m.mtx"] 1.
Proof.
  apply (StreamMatrixData_batch_size_below_one (FM := Decimal.model)). lia.
Defined.

Lemma StreamMatrixData_batch_size_one_witness :
  StreamMatrixData_lines (FM := Decimal.model)
    (Py.readlines (text_file ["1 1 1.0"; "% a"; "2 2 2.0"])) 1
  = Yield [] (Yield [row 1 1 1 0] (Yield [row 2 2 2 0] Stop)).
Proof.
  apply (StreamMatrixData_batch_size_one (FM := Decimal.model)
           (Py.readlines (text_file ["1 1 1.0"; "% a"; "2 2 2.0"]))
           [row 1 1 1 0; row 2 2 2 0]).
  apply parse_rows_complete. vm_compute. reflexivity.
Defined.

Lemma StreamMatrixData_trailing_comments_witness :
  StreamMatrixData_lines (FM := Decimal.model)
    (Py.readlines (text_file three_rows) ++ Py.readlines (text_file ["% end"; "%"])) 2
  = StreamMatrixData_lines (Py.readlines (text_file three_rows)) 2.
Proof.
  apply (StreamMatrixData_trailing_comments (FM := Decimal.model)).
  apply data_lines_none. vm_compute. reflexivity.
Defined.

Lemma blank_line_aborts_stream_witness :
  gen_end (StreamMatrixData_lines (FM := Decimal.model)
    (Py.readlines (text_file three_rows) ++ String Py.NL "" :: []) 2)
  = Some ValueError.
Proof.
  destruct (blank_line_aborts_stream (FM := Decimal.model) 2
    (Py.readlines (text_file three_rows)) (String Py.NL "") []
    [row 1 1 1 0; row 2 2 2 0; row 3 3 3 0]) as (_ & _ & Hend & _).
  - reflexivity.
  - apply parse_rows_complete. vm_compute. reflexivity.
  - exact Hend.
Defined.


Lemma LoadMTX_inserts_every_batch_witness :
  ∃ batches : list (list string),
    concat batches = ["('g1', 'c2', 0.5)"; "('g2', 'c3', 1.25)"] ∧
    LoadMTX (FM := Decimal.model) (EN := StatementLog.engine)
      (mtx_dataset ["data"] "ds" (text_file ["c1"; "c2"; "c3"]) (text_file ["g1"; "g2"])
         (text_file ["1 2 0.5"; "% a"; "2 3 1.25"]))
      ["data"] "ds" []
    = for_each (gen_of_list batches) (InsertExprData (EN := StatementLog.engine)) [].
Proof.
  destruct (LoadMTX_inserts_every_batch (FM := Decimal.model) (EN := StatementLog.engine)
    (mtx_dataset ["data"] "ds" (text_file ["c1"; "c2"; "c3"]) (text_file ["g1"; "g2"])
       (text_file ["1 2 0.5"; "% a"; "2 3 1.25"]))
    ["data"] "ds" (text_file ["c1"; "c2"; "c3"]) (text_file ["g1"; "g2"])
    (text_file ["1 2 0.5"; "% a"; "2 3 1.25"])
    [row 1 2 5 1; row 2 3 125 2]
    ["('g1', 'c2', 0.5)"; "('g2', 'c3', 1.25)"] [])
    as (batches & Hcat & _ & Hload).
  - vm_compute. reflexivity.
  - vm_compute. reflexivity.
  - vm_compute. reflexivity.
  - apply parse_rows_complete. vm_compute. reflexivity.
  - apply mapM_Some_1. vm_compute. reflexivity.
  - exists batches. split; [exact Hcat|exact Hload].
Defined.

Lemma LoadMTX_single_insert_witness :
  LoadMTX (FM := Decimal.model) (EN := StatementLog.engine)
    (mtx_dataset ["data"] "ds" (text_file ["c1"; "c2"; "c3"]) (text_file ["g1"; "g2"])
       (text_file ["%%MatrixMarket"; "1 2 0.5"; "2 3 1.25"]))
    ["data"] "ds" []
  = Returned [" INSERT INTO expr VALUES ('g1', 'c2', 0.5),('g2', 'c3', 1.25)"].
Proof.
  destruct (LoadMTX_single_insert (FM := Decimal.model) (EN := StatementLog.engine)
    (mtx_dataset ["data"] "ds" (text_file ["c1"; "c2"; "c3"]) (text_file ["g1"; "g2"])
       (text_file ["%%MatrixMarket"; "1 2 0.5"; "2 3 1.25"]))
    ["data"] "ds" (text_file ["c1"; "c2"; "c3"]) (text_file ["g1"; "g2"])
    (text_file ["%%MatrixMarket"; "1 2 0.5"; "2 3 1.25"])
    (Py.readlines (text_file ["%%MatrixMarket"]))
    (Py.readlines (text_file ["1 2 0.5"; "2 3 1.25"]))
    [row 1 2 5 1; row 2 3 125 2]
    ["('g1', 'c2', 0.5)"; "('g2', 'c3', 1.25)"] [])
    as (_ & Hload).
  - vm_compute. reflexivity.
  - vm_compute. reflexivity.
  - vm_compute. reflexivity.
  - vm_compute. reflexivity.
  - apply data_lines_none. vm_compute. reflexivity.
  - apply not_comment_lines. vm_compute. reflexivity.
  - apply parse_rows_complete. vm_compute. reflexivity.
  - cbn. lia.
  - apply mapM_Some_1. vm_compute. reflexivity.
  - rewrite Hload. vm_compute. reflexivity.
Defined.

Lemma LoadMTX_malformed_line_witness :
  ∃ e, is_ParseError e = true ∧
    LoadMTX (FM := Decimal.model) (EN := StatementLog.engine)
      (mtx_dataset ["data"] "ds" (text_file ["c1"; "c2"]) (text_file ["g1"])
         (spaced "1 1 0.5" ["1 2 0.5"; "oops"]))
      ["data"] "ds" []
    = Raised e [" INSERT INTO expr VALUES ('g1', 'c1', 0.5)"].
Proof.
  apply (LoadMTX_malformed_line (FM := Decimal.model) (EN := StatementLog.engine)
    (mtx_dataset ["data"] "ds" (text_file ["c1"; "c2"]) (text_file ["g1"])
       (spaced "1 1 0.5" ["1 2 0.5"; "oops"]))
    ["data"] "ds" (text_file ["c1"; "c2"]) (text_file ["g1"])
    (spaced "1 1 0.5" ["1 2 0.5"; "oops"])
    (Py.readlines (spaced "1 1 0.5" ["1 2 0.5"]))
    (String.append "oops" (String Py.NL "")) []
    [row 1 1 5 1; row 1 2 5 1] []
    [" INSERT INTO expr VALUES ('g1', 'c1', 0.5)"]).
  - vm_compute. reflexivity.
  - vm_compute. reflexivity.
  - vm_compute. reflexivity.
  - vm_compute. reflexivity.
  - apply parse_rows_complete. vm_compute. reflexivity.
  - vm_compute. reflexivity.
  - vm_compute. reflexivity.
  - vm_compute. reflexivity.
Defined.

Lemma LoadMTX_insert_failure_witness :
  LoadMTX (FM := Decimal.model) (EN := UniqueLog.engine)
    (mtx_dataset ["data"] "ds" (text_file ["c1"]) (text_file ["g1"])
       (spaced "1 1 0.5" ["1 1 0.5"]))
    ["data"] "ds" []
  = Raised (DatabaseError "Constraint Error: duplicate key")
      [" INSERT INTO expr VALUES ('g1', 'c1', 0.5)"].
Proof.
  apply (LoadMTX_insert_failure (FM := Decimal.model) (EN := UniqueLog.engine)
    (mtx_dataset ["data"] "ds" (text_file ["c1"]) (text_file ["g1"])
       (spaced "1 1 0.5" ["1 1 0.5"]))
    ["data"] "ds" (text_file ["c1"]) (text_file ["g1"])
    (spaced "1 1 0.5" ["1 1 0.5"])
    [[row 1 1 5 1]] [row 1 1 5 1] [] ["('g1', 'c1', 0.5)"]
    (DatabaseError "Constraint Error: duplicate key") []
    [" INSERT INTO expr VALUES ('g1', 'c1', 0.5)"]
    [" INSERT INTO expr VALUES ('g1', 'c1', 0.5)"]).
  - vm_compute. reflexivity.
  - vm_compute. reflexivity.
  - vm_compute. reflexivity.
  - vm_compute. reflexivity.
  - vm_compute. reflexivity.
  - apply mapM_Some_1. vm_compute. reflexivity.
  - vm_compute. reflexivity.
Defined.

Lemma LoadClusters_one_record_per_line_witness :
  LoadClusters (EN := StatementLog.engine)
    {[ ["data"; "datasetX"; "clusters.tsv"] :=
         text_file [tsv ["1"; "10"; "cellA"]; tsv [" 2"; "11 "; "cellB"]] ]}
    ["data"; "datasetX"] default_file_name []
  = Returned [" INSERT INTO clusters VALUES (  1 ,10 ,'cellA' ,'datasetX'),(  2 ,11 ,'cellB' ,'datasetX')"].
Proof.
  rewrite (LoadClusters_one_record_per_line (EN := StatementLog.engine)
    {[ ["data"; "datasetX"; "clusters.tsv"] :=
         text_file [tsv ["1"; "10"; "cellA"]; tsv [" 2"; "11 "; "cellB"]] ]}
    ["data"; "datasetX"] "datasetX" default_file_name
    (text_file [tsv ["1"; "10"; "cellA"]; tsv [" 2"; "11 "; "cellB"]])
    ["(  1 ,10 ,'cellA' ,'datasetX')"; "(  2 ,11 ,'cellB' ,'datasetX')"] []).
  - vm_compute. reflexivity.
  - reflexivity.
  - vm_compute. reflexivity.
  - apply mapM_Some_1. vm_compute. reflexivity.
Defined.

Lemma LoadClusters_malformed_line_witness :
  LoadClusters (EN := StatementLog.engine)
    {[ ["data"; "datasetX"; "clusters.tsv"] :=
         text_file [tsv ["1"; "10"; "cellA"]; tsv ["1"; "cellB"]] ]}
    ["data"; "datasetX"] default_file_name [" CREATE TABLE clusters"]
  = Raised ValueError [" CREATE TABLE clusters"].
Proof.
  apply (LoadClusters_malformed_line (EN := StatementLog.engine)
    {[ ["data"; "datasetX"; "clusters.tsv"] :=
         text_file [tsv ["1"; "10"; "cellA"]; tsv ["1"; "cellB"]] ]}
    ["data"; "datasetX"] default_file_name
    (text_file [tsv ["1"; "10"; "cellA"]; tsv ["1"; "cellB"]])).
  - vm_compute. reflexivity.
  - apply mapM_None_1. vm_compute. reflexivity.
Defined.

Lemma lines_used_stripped_witness :
  ParseIDs_loop 1 ["  g1  "; String.append "g2" (String Py.NL "")] ∅
  = ParseIDs_loop 1 ["g1"; "g2"] ∅.
Proof.
  apply (lines_used_stripped (FM := Decimal.model)
           ["  g1  "; String.append "g2" (String Py.NL "")] ["g1"; "g2"]).
  repeat (constructor; [reflexivity|]). constructor.
Defined.

(** * The built-ins on edge inputs *)

(** [int] skips tabs and spaces around the digits but not the separator
    0x1c, which [str.strip] does remove at the ends of a line: a field
    that keeps one inside the line is not numeric and aborts the stream. *)
Lemma int_whitespace_class :
  Py.int (String Py.TAB "12 ") = Ok 12 ∧
  Py.int (String "1" (String "028" "")) = Raise ValueError ∧
  Py.strip (String "1" (String "028" "")) = "1" ∧
  StreamMatrixData_lines (FM := Decimal.model)
    (Py.readlines (text_file [String "1" (String "028" " 2 0.5")])) default_batch_size
  = Abort ValueError.
Proof. repeat split; vm_compute; reflexivity. Qed.

(** [int] converts at most 4300 digits. *)
Lemma int_digit_limit :
  Py.int (String.concat "" (replicate 4300 "0")) = Ok 0 ∧
  Py.int (String.concat "" (replicate 4301 "0")) = Raise ValueError.
Proof. split; vm_compute; reflexivity. Qed.

(** [p / name] splits [name] on "/", drops its empty and "." components,
    and starts afresh from an absolute [name]. *)
Lemma path_join_components :
  ["data"] // "a/./b" = ["data"; "a"; "b"] ∧
  path_name (["data"] // "a/b") = "b" ∧
  path_name (["data"] // "") = "data" ∧
  ["data"] // "/srv//x/" = [""; "srv"; "x"] ∧
  ["data"] // "//srv" = [""; ""; "srv"] ∧
  path_name (["data"] // "/") = "".
Proof. repeat split; vm_compute; reflexivity. Qed.
